(** * Crafty API: the product catalogue endpoints of [main.py]

    A shallow embedding of the FastAPI handlers [list_products],
    [get_product], [create_product] and [seed_products], together with the
    pieces of their environment they depend on: Python's coercions [str],
    [float] and [bool], the [bson] [ObjectId] parser, the query operators
    of the document store, and the helpers of [database.py] and
    [schemas.py].

    Documents are Python dicts, modelled as [gmap string bson]; the
    collection is the list of its documents in natural (insertion) order;
    prices are IEEE binary64 numbers (Rocq's primitive floats); texts are
    strings of 8-bit characters and letter case is the ASCII one.  The
    store folds the case of other letters too, so the properties that say
    which records a case-insensitive criterion selects are stated for
    ASCII texts. *)

From Stdlib Require Import ZArith Floats Ascii String.
From stdpp Require Import gmap strings list fin_maps pretty.

Local Open Scope string_scope.
Local Open Scope Z_scope.

(** ** Characters and case-insensitive texts *)

Module Text.

Definition LF : ascii := ascii_of_N 10.

Definition is_upper (c : ascii) : bool :=
  let n := N_of_ascii c in ((65 <=? n) && (n <=? 90))%N.

Definition is_lower (c : ascii) : bool :=
  let n := N_of_ascii c in ((97 <=? n) && (n <=? 122))%N.

Definition is_digit (c : ascii) : bool :=
  let n := N_of_ascii c in ((48 <=? n) && (n <=? 57))%N.

Definition is_alnum (c : ascii) : bool :=
  is_upper c || is_lower c || is_digit c.

(** Python's [str.lower] and the store's caseless comparison, on ASCII. *)
Definition fold_case (c : ascii) : ascii :=
  if is_upper c then ascii_of_N (N_of_ascii c + 32) else c.

Definition same_char (ci : bool) (a b : ascii) : bool :=
  if ci then bool_decide (fold_case a = fold_case b) else bool_decide (a = b).

(** [q] is a prefix of [text], letter case ignored. *)
Fixpoint prefix_ci (q text : string) : bool :=
  match q with
  | EmptyString => true
  | String a q' =>
      match text with
      | EmptyString => false
      | String b text' => same_char true a b && prefix_ci q' text'
      end
  end.

(** [q] occurs somewhere in [text], letter case ignored. *)
Fixpoint substring_ci (q text : string) : bool :=
  prefix_ci q text
  || match text with
     | EmptyString => false
     | String _ text' => substring_ci q text'
     end.

(** [a] and [b] are the same text, letter case ignored. *)
Fixpoint equal_ci (a b : string) : bool :=
  match a, b with
  | EmptyString, EmptyString => true
  | String x a', String y b' => same_char true x y && equal_ci a' b'
  | _, _ => false
  end.

Fixpoint forall_chars (p : ascii -> bool) (s : string) : bool :=
  match s with
  | EmptyString => true
  | String c s' => p c && forall_chars p s'
  end.

Fixpoint exists_char (p : ascii -> bool) (s : string) : bool :=
  match s with
  | EmptyString => false
  | String c s' => p c || exists_char p s'
  end.

End Text.

(** ** Regular expressions of the document store

    The store evaluates ["$regex"] with PCRE.  This development interprets
    the following fragment of its syntax: literal characters, [.], a
    backslash before a character that is not a letter or digit, the
    quantifiers [*], [+] and [?] after a single character, [^] as the
    first and [$] as the last character of the pattern.  Semantics as in
    PCRE without the [m] and [s] options: [.] matches every character but
    a line feed, and [$] matches at the end of the text and also before a
    line feed that ends it.  A pattern that starts with a quantifier does
    not compile.  Anything else (alternation, groups, classes, braces,
    backslash before a letter or digit, an anchor in the middle, a
    quantifier after a quantifier) is outside the fragment. *)

Module Regex.
Import Text.

Inductive atom := Lit (c : ascii) | AnyChar.
Inductive quant := Once | Star | Plus | Opt.

Record pattern := Pattern {
  bol : bool;                       (* the pattern starts with ^ *)
  items : list (atom * quant);
  eol : bool                        (* the pattern ends with $ *)
}.

Inductive compiled :=
| Compiled (p : pattern)
| Invalid                           (* PCRE refuses the pattern *)
| Unsupported.                      (* outside the fragment *)

Inductive token :=
| TAtom (a : atom) | TQuant (q : quant) | TCaret | TDollar | TOther.

Definition token_of (c : ascii) : token :=
  if bool_decide (c = "."%char) then TAtom AnyChar
  else if bool_decide (c = "*"%char) then TQuant Star
  else if bool_decide (c = "+"%char) then TQuant Plus
  else if bool_decide (c = "?"%char) then TQuant Opt
  else if bool_decide (c = "^"%char) then TCaret
  else if bool_decide (c = "$"%char) then TDollar
  else if bool_decide (c ∈ ["("; ")"; "["; "]"; "{"; "}"; "|"; "\"]%char) then TOther
  else TAtom (Lit c).

Fixpoint tokens (s : string) : list token :=
  match s with
  | EmptyString => []
  | String c s' =>
      if bool_decide (c = "\"%char) then
        match s' with
        | EmptyString => [TOther]
        | String e s'' =>
            (if is_alnum e then TOther else TAtom (Lit e)) :: tokens s''
        end
      else token_of c :: tokens s'
  end.

(** The items after the optional [^]: [Some (its, eol)], or [None] when
    the tokens leave the fragment. *)
Fixpoint parse_items (ts : list token) : option (list (atom * quant) * bool) :=
  match ts with
  | [] => Some ([], false)
  | TAtom a :: ts' =>
      match ts' with
      | TQuant q :: ts'' =>
          match parse_items ts'' with
          | Some (its, e) => Some ((a, q) :: its, e)
          | None => None
          end
      | _ =>
          match parse_items ts' with
          | Some (its, e) => Some ((a, Once) :: its, e)
          | None => None
          end
      end
  | TDollar :: ts' =>
      match ts' with
      | [] => Some ([], true)
      | _ => None
      end
  | _ => None
  end.

Definition parse (b : bool) (ts : list token) : compiled :=
  match parse_items ts with
  | Some (its, e) => Compiled (Pattern b its e)
  | None => Unsupported
  end.

Definition compile (s : string) : compiled :=
  match tokens s with
  | TQuant _ :: _ => Invalid
  | TCaret :: ts => parse true ts
  | ts => parse false ts
  end.

Definition atom_matches (ci : bool) (a : atom) (c : ascii) : bool :=
  match a with
  | AnyChar => negb (bool_decide (c = LF))
  | Lit x => same_char ci x c
  end.

(** [$]: at the end of the text, or before a final line feed. *)
Definition at_end (text : string) : bool :=
  match text with
  | EmptyString => true
  | String c EmptyString => bool_decide (c = LF)
  | _ => false
  end.

(** The pattern matches a prefix of [text] (backtracking over the
    quantifiers). *)
Fixpoint match_here (ci : bool) (its : list (atom * quant)) (e : bool)
    (text : string) {struct its} : bool :=
  match its with
  | [] => if e then at_end text else true
  | (a, q) :: its' =>
      let rest := match_here ci its' e in
      let star :=
        fix star (t : string) : bool :=
          rest t
          || match t with
             | EmptyString => false
             | String c t' => atom_matches ci a c && star t'
             end in
      match q with
      | Once =>
          match text with
          | EmptyString => false
          | String c t' => atom_matches ci a c && rest t'
          end
      | Opt =>
          rest text
          || match text with
             | EmptyString => false
             | String c t' => atom_matches ci a c && rest t'
             end
      | Star => star text
      | Plus =>
          match text with
          | EmptyString => false
          | String c t' => atom_matches ci a c && star t'
          end
      end
  end.

(** Unanchored search: a match may start at any offset. *)
Fixpoint search_from (ci : bool) (its : list (atom * quant)) (e : bool)
    (text : string) : bool :=
  match_here ci its e text
  || match text with
     | EmptyString => false
     | String _ text' => search_from ci its e text'
     end.

Definition search (ci : bool) (p : pattern) (text : string) : bool :=
  if bol p then match_here ci (items p) (eol p) text
  else search_from ci (items p) (eol p) text.

(** The ["$options"] string: only [i] is interpreted. *)
Definition caseless (options : string) : bool :=
  exists_char (λ c, bool_decide (c = "i"%char)) options.

(** The characters that stand for themselves in a pattern. *)
Definition plain_char (c : ascii) : bool :=
  negb (bool_decide
    (c ∈ ["."; "^"; "$"; "*"; "+"; "?"; "("; ")"; "["; "]"; "{"; "}"; "|"; "\"]%char)).

Definition plain (s : string) : bool := forall_chars plain_char s.

Definition lits (s : string) : list (atom * quant) :=
  (λ c, (Lit c, Once)) <$> list_ascii_of_string s.

End Regex.

(** ** Python and BSON values *)

(** A [bson.ObjectId], held as the text [str] gives for it: the lowercase
    hexadecimal digits of its bytes. *)
Record ObjectId := OID { hex : string }.

Global Instance ObjectId_eq_dec : EqDecision ObjectId.
Proof. solve_decision. Defined.

(** The values a stored document holds under a key, as PyMongo hands them
    to Python: [None], [bool], [int], [float], [str] and [ObjectId]. *)
Inductive bson :=
| BNull
| BBool (b : bool)
| BInt (z : Z)
| BDouble (x : float)
| BStr (s : string)
| BOid (o : ObjectId).

(** A document, and any other Python dict with string keys. *)
Abbreviation document := (gmap string bson).

Inductive exn :=
| HTTPException (status_code : Z) (detail : string)
| RequestValidationError   (* FastAPI: a declared constraint of a parameter failed *)
| ValidationError          (* pydantic: a model constructor refused a value *)
| TypeError
| ValueError
| OverflowError
| InvalidId                (* bson.errors.InvalidId *)
| PyMongoError (msg : string)   (* the driver or the server failed *)
| NotInterpreted.          (* a search pattern outside the fragment of [Regex] *)

Inductive result (A : Type) :=
| Return (a : A)
| Raise (e : exn).
Arguments Return {A} a.
Arguments Raise {A} e.

(** What the HTTP client sees: FastAPI answers an [HTTPException] with its
    status code, a request that fails validation with 422, and an
    exception nobody caught with 500. *)
Definition status_code_of {A} (r : result A) : Z :=
  match r with
  | Return _ => 200
  | Raise (HTTPException c _) => c
  | Raise RequestValidationError => 422
  | Raise _ => 500
  end.

(** Python's [float(int)]: round to nearest, ties to even. *)
Definition float_of_Z (z : Z) : float :=
  SF2Prim (binary_normalize 53 1024 z 0 false).

(** The two conversions between floats and text are not interpreted: [str]
    of a float and [float] of a str. *)
Class FloatText := {
  float_str : float -> string;
  float_of_str : string -> option float
}.

Section Builtins.
Context `{FloatText}.

(** [bool(v)], Python's truth value. *)
Definition py_bool (v : bson) : bool :=
  match v with
  | BNull => false
  | BBool b => b
  | BInt z => negb (z =? 0)%Z
  | BDouble x => negb (x =? 0)%float
  | BStr s => negb (bool_decide (s = ""))
  | BOid _ => true
  end.

(** [str(v)]. *)
Definition py_str (v : bson) : string :=
  match v with
  | BNull => "None"
  | BBool b => if b then "True" else "False"
  | BInt z => pretty z
  | BDouble x => float_str x
  | BStr s => s
  | BOid o => hex o
  end.

(** [float(v)]. *)
Definition py_float (v : bson) : result float :=
  match v with
  | BNull => Raise TypeError
  | BBool b => Return (if b then 1 else 0)%float
  | BInt z =>
      let x := float_of_Z z in
      if is_infinity x then Raise OverflowError else Return x
  | BDouble x => Return x
  | BStr s =>
      match float_of_str s with
      | Some x => Return x
      | None => Raise ValueError
      end
  | BOid _ => Raise TypeError
  end.

End Builtins.

(** [d.get(key, default)] *)
Definition get_default (d : document) (key : string) (default : bson) : bson :=
  match d !! key with
  | Some v => v
  | None => default
  end.

(** [d.get(key)]: [None] when the key is missing. *)
Definition get (d : document) (key : string) : bson := get_default d key BNull.

(** The truth value of a dict: false when it is empty. *)
Definition dict_bool {V} (d : gmap string V) : bool :=
  match map_to_list d with
  | [] => false
  | _ => true
  end.

(** ** [bson.objectid.ObjectId(text)] *)

Module Oid.
Import Text.

Definition is_hex (c : ascii) : bool :=
  let n := N_of_ascii c in
  (is_digit c || ((97 <=? n) && (n <=? 102)) || ((65 <=? n) && (n <=? 70)))%N.

Definition is_lower_hex (c : ascii) : bool :=
  let n := N_of_ascii c in
  (is_digit c || ((97 <=? n) && (n <=? 102)))%N.

(** [Py_ISSPACE]: space, tab, line feed, vertical tab, form feed, return. *)
Definition is_space (c : ascii) : bool :=
  let n := N_of_ascii c in ((n =? 32) || ((9 <=? n) && (n <=? 13)))%N.

(** [bytes.fromhex]: two hexadecimal digits per byte, ASCII whitespace
    between bytes is skipped.  The bytes are returned as their lowercase
    hexadecimal text. *)
Fixpoint fromhex (s : string) : option string :=
  match s with
  | EmptyString => Some EmptyString
  | String c s' =>
      if is_space c then fromhex s'
      else
        match s' with
        | EmptyString => None
        | String d s'' =>
            if is_hex c && is_hex d then
              match fromhex s'' with
              | Some r => Some (String (fold_case c) (String (fold_case d) r))
              | None => None
              end
            else None
        end
  end.

(** [ObjectId(text)]: the text must have 24 characters that
    [bytes.fromhex] accepts; [None] stands for [InvalidId]. *)
Definition parse (text : string) : option ObjectId :=
  if bool_decide (String.length text = 24%nat) then
    match fromhex text with
    | Some h => Some (OID h)
    | None => None
    end
  else None.

Fixpoint hex_pairs (s : string) : bool :=
  match s with
  | EmptyString => true
  | String c (String d s') => is_lower_hex c && is_lower_hex d && hex_pairs s'
  | _ => false
  end.

(** An id of twelve bytes, as the driver generates them. *)
Definition twelve_bytes (o : ObjectId) : bool :=
  bool_decide (String.length (hex o) = 24%nat) && hex_pairs (hex o).

End Oid.

(** ** The document store

    The collection ["product"] behind [db], as the endpoints use it through
    PyMongo: [find] with a limit, [find_one] and [insert_one].  Only the
    query operators that [main.py] builds are interpreted. *)

(** The dict under a field name in a filter. *)
Inductive cond :=
| Regex (pattern options : string)     (* {"$regex": pattern, "$options": options} *)
| Compare (ops : gmap string float)    (* {"$gte": a, "$lte": b}, either key optional *)
| Equals (v : bson).                   (* a plain value *)

Inductive clause :=
| Field (c : cond)                     (* "field": c *)
| Or (alts : list (gmap string cond)). (* "$or": [{"field": c}, ...] *)

Abbreviation filter := (gmap string clause).

Module Mongo.

(** Numbers of different BSON types are compared by value; a NaN on
    either side only satisfies [$gte] and [$lte] against another NaN. *)
Definition compare_int_double (z : Z) (y : float) : option comparison :=
  match Prim2SF y with
  | S754_nan => None
  | S754_zero _ => Some (z ?= 0)
  | S754_infinity s => Some (if s then Gt else Lt)
  | S754_finite s m e =>
      let v := if s then Z.neg m else Z.pos m in
      Some (if 0 <=? e then z ?= v * 2 ^ e else z * 2 ^ (- e) ?= v)
  end.

(** [v >= bound] for the operator ["$gte"]. *)
Definition number_ge (v : bson) (bound : float) : bool :=
  match v with
  | BDouble x => (bound <=? x)%float || (is_nan x && is_nan bound)
  | BInt z =>
      match compare_int_double z bound with
      | Some Lt | None => false
      | Some _ => true
      end
  | _ => false
  end.

(** [v <= bound] for the operator ["$lte"]. *)
Definition number_le (v : bson) (bound : float) : bool :=
  match v with
  | BDouble x => (x <=? bound)%float || (is_nan x && is_nan bound)
  | BInt z =>
      match compare_int_double z bound with
      | Some Gt | None => false
      | Some _ => true
      end
  | _ => false
  end.

(** Equality of a stored value with a query value. *)
Definition bson_equal (v w : bson) : bool :=
  match v, w with
  | BNull, BNull => true
  | BBool a, BBool b => bool_decide (a = b)
  | BStr a, BStr b => bool_decide (a = b)
  | BOid a, BOid b => bool_decide (a = b)
  | BInt a, BInt b => (a =? b)%Z
  | BDouble a, BDouble b => (a =? b)%float || (is_nan a && is_nan b)
  | BInt a, BDouble b | BDouble b, BInt a =>
      match compare_int_double a b with
      | Some Eq => true
      | _ => false
      end
  | _, _ => false
  end.

Definition regex_matches (pattern options text : string) : bool :=
  match Regex.compile pattern with
  | Regex.Compiled p => Regex.search (Regex.caseless options) p text
  | _ => false
  end.

(** The condition [c] on the value found (or not) under the field. *)
Definition cond_matches (c : cond) (v : option bson) : bool :=
  match c with
  | Regex pattern options =>
      match v with
      | Some (BStr text) => regex_matches pattern options text
      | _ => false
      end
  | Compare ops =>
      match v with
      | Some x =>
          dict_bool ops
          && match ops !! "$gte" with
             | Some bound => number_ge x bound
             | None => true
             end
          && match ops !! "$lte" with
             | Some bound => number_le x bound
             | None => true
             end
      | None => false
      end
  | Equals w =>
      match v with
      | Some x => bson_equal x w
      | None => match w with BNull => true | _ => false end
      end
  end.

(** Every field condition of the dict holds of [d]. *)
Definition alt_matches (alt : gmap string cond) (d : document) : bool :=
  bool_decide (map_Forall (λ k c, cond_matches c (d !! k) = true) alt).

Definition clause_matches (k : string) (cl : clause) (d : document) : bool :=
  match cl with
  | Field c => cond_matches c (d !! k)
  | Or alts => bool_decide (k = "$or") && existsb (λ alt, alt_matches alt d) alts
  end.

(** The top-level keys of a filter are a conjunction. *)
Definition matches (f : filter) (d : document) : bool :=
  bool_decide (map_Forall (λ k cl, clause_matches k cl d = true) f).

(** Whether every condition of the filter passes the test [p]. *)
Definition clause_all (p : cond -> bool) (cl : clause) : bool :=
  match cl with
  | Field c => p c
  | Or alts =>
      forallb (λ alt : gmap string cond,
                 bool_decide (map_Forall (λ _ c, p c = true) alt)) alts
  end.

Definition filter_all (p : cond -> bool) (f : filter) : bool :=
  bool_decide (map_Forall (λ _ cl, clause_all p cl = true) f).

Definition interpreted (c : cond) : bool :=
  match c with
  | Regex pattern _ =>
      match Regex.compile pattern with
      | Regex.Unsupported => false
      | _ => true
      end
  | _ => true
  end.

Definition well_formed (c : cond) : bool :=
  match c with
  | Regex pattern _ =>
      match Regex.compile pattern with
      | Regex.Invalid => false
      | _ => true
      end
  | _ => true
  end.

End Mongo.

(** The collection: its documents in natural order, whether the server
    answers, and how many operations have been sent to it. *)
Record store := Store {
  documents : list document;
  reachable : bool;
  operations : nat
}.

(** The module-level handle [db] of [database.py]: [None] when no
    connection is configured. *)
Abbreviation database := (option store).

(** Handlers run against [db]; they return or raise, and leave a store. *)
Definition M (A : Type) : Type := database -> result A * database.

Definition ret {A} (a : A) : M A := λ db, (Return a, db).
Definition raise {A} (e : exn) : M A := λ db, (Raise e, db).
Definition bind {A B} (m : M A) (k : A -> M B) : M B :=
  λ db, match m db with
        | (Return a, db') => k a db'
        | (Raise e, db') => (Raise e, db')
        end.
(** [try: m except Exception as e: h e] *)
Definition try_except {A} (m : M A) (h : exn -> M A) : M A :=
  λ db, match m db with
        | (Return a, db') => (Return a, db')
        | (Raise e, db') => h e db'
        end.
(** [db is None] *)
Definition db_is_none : M bool :=
  λ db, (Return (if db is None then true else false), db).
Definition lift {A} (r : result A) : M A := λ db, (r, db).

Global Instance M_ret : MRet M := @ret.
Global Instance M_bind : MBind M := λ A B k m, bind m k.

Module Collection.

Definition send (s : store) : store :=
  Store (documents s) (reachable s) (S (operations s)).

(** What the driver raises when no server answers: a
    [ServerSelectionTimeoutError] whose text names the server, the error
    of the connection and the timeout.  The wording depends on the
    deployment and on the driver; this one is that of a server on the
    local host that refuses the connection, with the description of the
    topology shortened.  Like the driver's, it has more than 50
    characters. *)
Definition unreachable : exn :=
  PyMongoError "localhost:27017: [Errno 111] Connection refused, Timeout: 30s, Topology Description: <TopologyDescription>".

(** One round trip to the server: [f] computes the reply and the
    documents the collection holds afterwards. *)
Definition operation {A}
    (f : list document -> result A * list document) : M A :=
  λ db, match db with
        | None => (Raise TypeError, None)
        | Some s =>
            if reachable s then
              let '(r, ds) := f (documents s) in
              (r, Some (Store ds true (S (operations s))))
            else (Raise unreachable, Some (send s))
        end.

(** The server compiles the patterns of the filter before it answers.  A
    pattern outside the fragment of [Regex] has no answer here: the
    operation ends in [NotInterpreted], which stands for an outcome this
    development does not determine, not for a failure of the store. *)
Definition check_filter {A} (f : filter) (r : result A) : result A :=
  if negb (Mongo.filter_all Mongo.interpreted f) then Raise NotInterpreted
  else if negb (Mongo.filter_all Mongo.well_formed f) then
    Raise (PyMongoError "Regular expression is invalid")
  else r.

(** [list(db["product"].find(f).limit(limit))], for a positive [limit]:
    [main.py] only passes limits from 1 to 100. *)
Definition find (f : filter) (limit : Z) : M (list document) :=
  operation (λ ds,
    (check_filter f (Return (take (Z.to_nat limit) (List.filter (Mongo.matches f) ds))), ds)).

(** [db["product"].find_one(f)] *)
Definition find_one (f : filter) : M (option document) :=
  operation (λ ds,
    (check_filter f (Return (head (List.filter (Mongo.matches f) ds))), ds)).

(** [db["product"].insert_one(d)]: the driver adds [new_id] as ["_id"]
    when the document has none; the server refuses a second document
    with the same ["_id"].  Returns [inserted_id]. *)
Definition insert_one (new_id : ObjectId) (d : document) : M bson :=
  operation (λ ds,
    let d' := match d !! "_id" with
              | Some _ => d
              | None => <["_id" := BOid new_id]> d
              end in
    let id := get d' "_id" in
    if existsb (λ e : document, Mongo.cond_matches (Equals id) (e !! "_id")) ds
    then (Raise (PyMongoError "DuplicateKeyError"), ds)
    else (Return id, (ds ++ [d'])%list)).

End Collection.

(** Straight-line Python that may raise, outside the store. *)
Global Instance result_ret : MRet result := @Return.
Global Instance result_bind : MBind result :=
  λ A B k r, match r with
             | Return a => k a
             | Raise e => Raise e
             end.

(** A [for] loop that appends [f d] to the output for each [d]. *)
Fixpoint for_each {A B} (f : A -> result B) (l : list A) : result (list B) :=
  match l with
  | [] => Return []
  | a :: l' =>
      match f a with
      | Return b =>
          match for_each f l' with
          | Return bs => Return (b :: bs)
          | Raise e => Raise e
          end
      | Raise e => Raise e
      end
  end.

(** [str(e)] of an exception, for the [detail] of a response. *)
Definition exn_str (e : exn) : string :=
  match e with
  | HTTPException _ detail => detail
  | PyMongoError msg => msg
  | RequestValidationError => "RequestValidationError"
  | ValidationError => "ValidationError"
  | TypeError => "TypeError"
  | ValueError => "ValueError"
  | OverflowError => "OverflowError"
  | InvalidId => "InvalidId"
  | NotInterpreted => "NotInterpreted"
  end.

(** ** [schemas.py] *)

(** A JSON or Python number given for a float field. *)
Inductive number := Int (z : Z) | Float (x : float).

(** The keyword arguments (or JSON body) a [Product] is built from. *)
Module Payload.
Record t := Make {
  name : string;
  description : option string;
  price : number;
  category : string;
  location : option string;
  image : option string;
  in_stock : option bool
}.
End Payload.

(** Modelled from the spec: the pydantic model [Product] of [schemas.py],
    which is not among the sources.  Its fields are those of the data model
    (section 3): [name], [price] and [category] are required, the price is a
    non-negative float, [description], [location] and [image] may be absent,
    and [in_stock] defaults to true. *)
Module Product.
Record t := Make {
  name : string;
  description : option string;
  price : float;
  category : string;
  location : option string;
  image : option string;
  in_stock : bool
}.

(** The constructor applied to the keyword arguments [p]: an integer
    price becomes a float; a negative price or a NaN is refused. *)
Definition new (p : Payload.t) : result t :=
  let x := match Payload.price p with
           | Int z => float_of_Z z
           | Float x => x
           end in
  if (0 <=? x)%float then
    Return (Make (Payload.name p) (Payload.description p) x
                 (Payload.category p) (Payload.location p) (Payload.image p)
                 (default true (Payload.in_stock p)))
  else Raise ValidationError.

Definition optional_str (o : option string) : bson :=
  match o with
  | Some s => BStr s
  | None => BNull
  end.

(** [model_dump()]: every field under its name, an absent one as [None]. *)
Definition model_dump (p : t) : document :=
  <["name" := BStr (name p)]>
  (<["description" := optional_str (description p)]>
  (<["price" := BDouble (price p)]>
  (<["category" := BStr (category p)]>
  (<["location" := optional_str (location p)]>
  (<["image" := optional_str (image p)]>
  (<["in_stock" := BBool (in_stock p)]> ∅)))))).
End Product.

(** ** [main.py]: the response model *)

Module ProductOut.
Record t := Make {
  id : string;
  name : string;
  description : option string;
  price : float;
  category : string;
  location : option string;
  image : option string;
  in_stock : bool
}.

(** pydantic's check of a [str] field (pydantic 2, which the [Config] of
    [ProductOut] is written for: no other value is turned into a text). *)
Definition str_field (v : bson) : result string :=
  match v with
  | BStr s => Return s
  | _ => Raise ValidationError
  end.

(** pydantic's check of an [Optional[str]] field. *)
Definition optional_str_field (v : bson) : result (option string) :=
  match v with
  | BNull => Return None
  | BStr s => Return (Some s)
  | _ => Raise ValidationError
  end.

(** [ProductOut(id=..., name=..., ...)]: [id], [price] and [in_stock]
    arrive as [str], [float] and [bool]; the other arguments are whatever
    the document holds. *)
Definition new (id : string) (name description : bson) (price : float)
    (category location image : bson) (in_stock : bool) : result t :=
  name ← str_field name;
  description ← optional_str_field description;
  category ← str_field category;
  location ← optional_str_field location;
  image ← optional_str_field image;
  mret (Make id name description price category location image in_stock).
End ProductOut.

Section Endpoints.
Context `{FloatText}.

(** ** [database.py] *)

(** Modelled from the spec: [get_documents] of [database.py], which is
    not among the sources.  The store executes the filter and returns the
    matching raw records, at most [limit] of them (sections 2 and 4.1). *)
Definition get_documents (collection_name : string) (filter_dict : filter)
    (limit : Z) : M (list document) :=
  Collection.find filter_dict limit.

(** Modelled from the spec: [create_document] of [database.py], which is
    not among the sources.  It inserts the payload into the store and
    returns the newly assigned id as a string (section 4.2).  [new_id] is
    the [ObjectId] the driver generates for the insertion. *)
Definition create_document (new_id : ObjectId) (collection_name : string)
    (data : Product.t) : M string :=
  inserted_id ← Collection.insert_one new_id (Product.model_dump data);
  mret (py_str inserted_id).

(** ** [list_products] *)

(** The truth value of an [Optional[str]]: false for [None] and [""]. *)
Definition str_bool (o : option string) : bool :=
  match o with
  | Some s => negb (bool_decide (s = ""))
  | None => false
  end.

(** Lines 90 to 106: the filter built from the parameters. *)
Definition filter_q (q category : option string)
    (min_price max_price : option float) : filter :=
  let filter_q : filter := ∅ in
  let filter_q :=
    if str_bool q then
      let q := default "" q in
      <["$or" := Or [ {["name" := Regex q "i"]};
                      {["description" := Regex q "i"]};
                      {["category" := Regex q "i"]};
                      {["location" := Regex q "i"]} ]]> filter_q
    else filter_q in
  let filter_q :=
    if str_bool category then
      let category := default "" category in
      <["category" := Field (Regex ("^" +:+ category +:+ "$") "i")]> filter_q
    else filter_q in
  let price_filter : gmap string float := ∅ in
  let price_filter :=
    match min_price with
    | Some m => <["$gte" := m]> price_filter
    | None => price_filter
    end in
  let price_filter :=
    match max_price with
    | Some m => <["$lte" := m]> price_filter
    | None => price_filter
    end in
  if dict_bool price_filter then
    <["price" := Field (Compare price_filter)]> filter_q
  else filter_q.

(** Lines 111 to 121: the body of the loop over the fetched documents. *)
Definition product_out_listed (d : document) : result ProductOut.t :=
  let d_id := if py_bool (get d "_id") then Some (py_str (get d "_id")) else None in
  price ← py_float (get_default d "price" (BInt 0));
  ProductOut.new (match d_id with
                  | Some s => if bool_decide (s = "") then "" else s
                  | None => ""
                  end)
    (get_default d "name" (BStr ""))
    (get d "description")
    price
    (get_default d "category" (BStr ""))
    (get d "location")
    (get d "image")
    (py_bool (get_default d "in_stock" (BBool true))).

Definition list_products (q category : option string)
    (min_price max_price : option float) (limit : Z) : M (list ProductOut.t) :=
  none ← db_is_none;
  if (none : bool) then raise (HTTPException 500 "Database not available")
  else
    docs ← get_documents "product" (filter_q q category min_price max_price) limit;
    lift (for_each product_out_listed docs).

(** The query string after parsing: an omitted parameter is [None]. *)
Record query := Query {
  q : option string;
  category : option string;
  min_price : option float;
  max_price : option float;
  limit : option Z
}.

(** [Query(None, ge=0)] *)
Definition ge_0 (o : option float) : bool :=
  match o with
  | Some x => (0 <=? x)%float
  | None => true
  end.

(** [GET /api/products]: FastAPI checks the declared constraints of the
    parameters (lines 81 to 85), fills in the default of [limit], and
    only then calls the handler. *)
Definition GET_products (r : query) : M (list ProductOut.t) :=
  let limit := default 40 (limit r) in
  if ge_0 (min_price r) && ge_0 (max_price r) && (1 <=? limit) && (limit <=? 100)
  then list_products (q r) (category r) (min_price r) (max_price r) limit
  else raise RequestValidationError.

(** ** [get_product] *)

(** Lines 134 to 143. *)
Definition product_out (doc : document) : result ProductOut.t :=
  price ← py_float (get_default doc "price" (BInt 0));
  ProductOut.new (py_str (get doc "_id"))
    (get_default doc "name" (BStr ""))
    (get doc "description")
    price
    (get_default doc "category" (BStr ""))
    (get doc "location")
    (get doc "image")
    (py_bool (get_default doc "in_stock" (BBool true))).

(** [ObjectId(product_id)] *)
Definition ObjectId_new (text : string) : result ObjectId :=
  match Oid.parse text with
  | Some o => Return o
  | None => Raise InvalidId
  end.

Definition by_id (o : ObjectId) : filter := {["_id" := Field (Equals (BOid o))]}.

Definition get_product (product_id : string) : M ProductOut.t :=
  none ← db_is_none;
  if (none : bool) then raise (HTTPException 500 "Database not available")
  else
    doc ← try_except
             (oid ← lift (ObjectId_new product_id);
              Collection.find_one (by_id oid))
             (λ _, raise (HTTPException 400 "Invalid product id"));
    match doc with
    | Some d =>
        if dict_bool d then lift (product_out d)
        else raise (HTTPException 404 "Product not found")
    | None => raise (HTTPException 404 "Product not found")
    end.

(** ** [create_product] *)

Definition create_product (new_id : ObjectId) (payload : Product.t) : M string :=
  none ← db_is_none;
  if (none : bool) then raise (HTTPException 500 "Database not available")
  else
    try_except (create_document new_id "product" payload)
               (λ e, raise (HTTPException 400 (exn_str e))).

(** [POST /api/products]: FastAPI builds the [ProductCreate] from the
    body and answers 422 when that fails. *)
Definition POST_products (new_id : ObjectId) (body : Payload.t) : M string :=
  match Product.new body with
  | Return payload => create_product new_id payload
  | Raise _ => raise RequestValidationError
  end.

(** ** [seed_products] *)

Definition sample (name location : string) (price : Z) (image category : string)
    : Payload.t :=
  Payload.Make name None (Int price) category (Some location) (Some image) None.

Definition SAMPLE_PRODUCTS : list Payload.t := [
  sample "Block-Printed Dupatta" "Jaipur, Rajasthan" 1599
    "https://images.unsplash.com/photo-1685976045770-0562879cff98?ixid=M3w3OTkxMTl8MHwxfHNlYXJjaHwxfHxCbG9jay1QcmludGVkJTIwRHVwYXR0YXxlbnwwfDB8fHwxNzYzNTU5NTY1fDA&ixlib=rb-4.1.0&w=1600&auto=format&fit=crop&q=80"
    "Textiles";
  sample "Terracotta Vase" "Kutch, Gujarat" 1299
    "https://images.unsplash.com/photo-1523419409543-a3215c7beed5?q=80&w=1200&auto=format&fit=crop"
    "Ceramics";
  sample "Bamboo Basket" "Assam" 899
    "https://images.unsplash.com/photo-1519710164239-da123dc03ef4?q=80&w=1200&auto=format&fit=crop"
    "Home";
  sample "Warli Art Canvas" "Maharashtra" 2199
    "https://images.unsplash.com/photo-1580136579312-94651dfd596d?q=80&w=1200&auto=format&fit=crop"
    "Art";
  sample "Blue Pottery Bowl" "Jaipur, Rajasthan" 749
    "https://images.unsplash.com/photo-1616046229478-9901c5536a45?q=80&w=1200&auto=format&fit=crop"
    "Ceramics";
  sample "Phulkari Shawl" "Punjab" 1899
    "https://images.unsplash.com/photo-1685976045770-0562879cff98?ixid=M3w3OTkxMTl8MHwxfHNlYXJjaHwxfHxCbG9jay1QcmludGVkJTIwRHVwYXR0YXxlbnwwfDB8fHwxNzYzNTU5NTY1fDA&ixlib=rb-4.1.0&w=1600&auto=format&fit=crop&q=80"
    "Textiles"
].

Definition by_name (name : string) : filter := {["name" := Field (Equals (BStr name))]}.

(** [not exists], for the result of [find_one]. *)
Definition not_doc (doc : option document) : bool :=
  match doc with
  | Some d => negb (dict_bool d)
  | None => true
  end.

(** The loop of lines 207 to 212 over the samples that remain; [new_id i]
    is the [ObjectId] the driver would generate for the sample at
    index [i]. *)
Fixpoint seed_loop (new_id : nat -> ObjectId) (i : nat) (ps : list Payload.t)
    (inserted : Z) : M Z :=
  match ps with
  | [] => mret inserted
  | p :: ps' =>
      exists_ ← Collection.find_one (by_name (Payload.name p));
      if not_doc exists_ then
        data ← lift (Product.new p);
        create_document (new_id i) "product" data;;
        seed_loop new_id (S i) ps' (inserted + 1)
      else seed_loop new_id (S i) ps' inserted
  end.

Definition seed_products (new_id : nat -> ObjectId) : M Z :=
  none ← db_is_none;
  if (none : bool) then raise (HTTPException 500 "Database not available")
  else seed_loop new_id 0 SAMPLE_PRODUCTS 0.

End Endpoints.

(** * Vocabulary of the properties *)

(** ** The search criteria, in the words of the specification *)

Module Criteria.

Definition searched_fields : list string :=
  ["name"; "description"; "category"; "location"].

(** The term occurs, letter case ignored, as a substring of the name,
    the description, the category or the location of the record. *)
Definition term_occurs (q : string) (d : document) : bool :=
  existsb (λ k, match d !! k with
                | Some (BStr text) => Text.substring_ci q text
                | _ => false
                end) searched_fields.

(** The category of the record is the given one, letter case ignored. *)
Definition category_equals (c : string) (d : document) : bool :=
  match d !! "category" with
  | Some (BStr text) => Text.equal_ci c text
  | _ => false
  end.

(** The same, or the given category followed by one line feed. *)
Definition category_is (c : string) (d : document) : bool :=
  match d !! "category" with
  | Some (BStr text) =>
      Text.equal_ci c text || Text.equal_ci (c +:+ String Text.LF "") text
  | _ => false
  end.

(** The record stores a number as its price, and it lies within the
    bounds that are given. *)
Definition price_within (lo hi : option float) (d : document) : bool :=
  match d !! "price" with
  | Some p =>
      match lo with
      | Some m => Mongo.number_ge p m
      | None => true
      end
      && match hi with
         | Some m => Mongo.number_le p m
         | None => true
         end
  | None => false
  end.

End Criteria.

(** The dict [price_filter] of lines 100 to 104. *)
Definition price_filter (lo hi : option float) : gmap string float :=
  let pf : gmap string float := ∅ in
  let pf := match lo with Some m => <["$gte" := m]> pf | None => pf end in
  match hi with Some m => <["$lte" := m]> pf | None => pf end.

(** The document carries this [ObjectId] as its ["_id"]. *)
Definition has_id (o : ObjectId) (d : document) : bool :=
  Mongo.cond_matches (Equals (BOid o)) (d !! "_id").

(** The kinds of values the data model gives the fields of a record: the
    identifier is an [ObjectId]; the name and the category are texts; the
    description, the location and the image are texts or null; the price
    is a number [float] accepts (an integer within the range of floats, a
    double, a boolean, or a text that parses).  Any field may be missing,
    except the identifier the store assigns. *)
Module Shape.

Definition is_oid (v : option bson) : bool :=
  match v with
  | Some (BOid _) => true
  | _ => false
  end.

Definition is_text (v : option bson) : bool :=
  match v with
  | None | Some (BStr _) => true
  | _ => false
  end.

Definition is_optional_text (v : option bson) : bool :=
  match v with
  | None | Some BNull | Some (BStr _) => true
  | _ => false
  end.

Definition is_number `{FloatText} (v : option bson) : bool :=
  match v with
  | None | Some (BDouble _) | Some (BBool _) => true
  | Some (BInt z) => negb (is_infinity (float_of_Z z))
  | Some (BStr s) => bool_decide (is_Some (float_of_str s))
  | _ => false
  end.

Definition conforming `{FloatText} (d : document) : bool :=
  is_oid (d !! "_id") && is_text (d !! "name")
  && is_optional_text (d !! "description") && is_number (d !! "price")
  && is_text (d !! "category") && is_optional_text (d !! "location")
  && is_optional_text (d !! "image").

Definition id_text (d : document) : string :=
  match d !! "_id" with
  | Some (BOid o) => hex o
  | _ => ""
  end.

Definition text_or (d : document) (k default : string) : string :=
  match d !! k with
  | Some (BStr s) => s
  | _ => default
  end.

Definition optional_text (d : document) (k : string) : option string :=
  match d !! k with
  | Some (BStr s) => Some s
  | _ => None
  end.

Definition price_or_0 `{FloatText} (d : document) : float :=
  match d !! "price" with
  | Some (BDouble x) => x
  | Some (BInt z) => float_of_Z z
  | Some (BBool b) => if b then 1 else 0
  | Some (BStr s) => default 0%float (float_of_str s)
  | _ => 0
  end.

Definition in_stock_or_true (d : document) : bool :=
  match d !! "in_stock" with
  | Some v => py_bool v
  | None => true
  end.

(** The Product the specification describes for a record. *)
Definition product `{FloatText} (d : document) : ProductOut.t :=
  ProductOut.Make (id_text d) (text_or d "name" "") (optional_text d "description")
    (price_or_0 d) (text_or d "category" "") (optional_text d "location")
    (optional_text d "image") (in_stock_or_true d).

End Shape.

(** The document carries this text as its ["name"]. *)
Definition has_name (n : string) (d : document) : bool :=
  Mongo.cond_matches (Equals (BStr n)) (d !! "name").

(** What the collection holds for a payload inserted under the id [o]. *)
Definition stored (o : ObjectId) (data : Product.t) : document :=
  <["_id" := BOid o]> (Product.model_dump data).

(** The ids [new_id 0 .. new_id (n-1)] differ from one another and from
    the ids of the documents [ds]. *)
Definition fresh_ids (new_id : nat -> ObjectId) (n : nat) (ds : list document) : bool :=
  bool_decide (NoDup (new_id <$> seq 0 n))
  && forallb (λ j, negb (existsb (has_id (new_id j)) ds)) (seq 0 n).

(** ** Data of the closed examples

    None of the examples prints a float or parses one from text, so the
    two uninterpreted conversions are given trivial values there. *)

Module Demo.

Definition text : FloatText :=
  {| float_str := λ _, ""; float_of_str := λ _, None |}.

Definition oid1 : ObjectId := OID "65f0c0ffee0000000000a001".
Definition oid2 : ObjectId := OID "65f0c0ffee0000000000a002".
Definition oid3 : ObjectId := OID "65f0c0ffee0000000000a003".

(** Ids for the samples of the seed utility. *)
Definition sample_id (i : nat) : ObjectId :=
  OID ("65f0c0ffee0000000000b00" +:+ pretty i).

Definition record (o : ObjectId) (name : string) (price : bson)
    (category location : string) : document :=
  <["_id" := BOid o]> (<["name" := BStr name]> (<["price" := price]>
  (<["category" := BStr category]> (<["location" := BStr location]> ∅)))).

Definition vase : document :=
  record oid1 "Terracotta Vase" (BDouble 1299) "Ceramics" "Kutch, Gujarat".

Definition basket : document :=
  record oid2 "Bamboo Basket" (BDouble 899) "Home" "Assam".

(** A record whose name is null. *)
Definition nameless : document :=
  <["_id" := BOid oid2]> (<["name" := BNull]> (<["price" := BDouble 899]> ∅)).

(** A bowl whose category ends with a line feed. *)
Definition bowl : document :=
  record oid3 "Blue Pottery Bowl" (BInt 749)
    ("Ceramics" +:+ String Text.LF "") "Jaipur, Rajasthan".

(** A plate of the same category as the vase. *)
Definition plate : document :=
  record oid3 "Blue Pottery Plate" (BDouble 749) "Ceramics" "Jaipur, Rajasthan".

(** A record without a price. *)
Definition sketch : document :=
  <["_id" := BOid oid3]> (<["name" := BStr "Warli Sketch"]> ∅).

(** A record whose price is null. *)
Definition unpriced : document :=
  <["_id" := BOid oid3]> (<["name" := BStr "Warli Art Canvas"]>
  (<["price" := BNull]> (<["category" := BStr "Art"]> ∅))).

Definition shop (ds : list document) : store := Store ds true 0.

Definition out (o : ObjectId) (name : string) (price : float)
    (category location : string) : ProductOut.t :=
  ProductOut.Make (hex o) name None price category (Some location) None true.

Definition vase_out : ProductOut.t :=
  out oid1 "Terracotta Vase" 1299 "Ceramics" "Kutch, Gujarat".

Definition basket_out : ProductOut.t :=
  out oid2 "Bamboo Basket" 899 "Home" "Assam".

Definition bowl_out : ProductOut.t :=
  out oid3 "Blue Pottery Bowl" 749
    ("Ceramics" +:+ String Text.LF "") "Jaipur, Rajasthan".

Definition plate_out : ProductOut.t :=
  out oid3 "Blue Pottery Plate" 749 "Ceramics" "Jaipur, Rajasthan".

Definition sketch_out : ProductOut.t :=
  ProductOut.Make (hex oid3) "Warli Sketch" None 0 "" None None true.

(** How many entries an answer has. *)
Definition count {A} (r : result (list A)) : option nat :=
  match r with
  | Return l => Some (length l)
  | Raise _ => None
  end.

(** The body of the creation scenario. *)
Definition vase_body : Payload.t :=
  Payload.Make "Terracotta Vase" None (Int 1299) "Ceramics" None None None.

End Demo.

(** ** [test_database] *)

(** The [response] dict of the diagnostics endpoint. *)
Module Diagnostics.

Record t := Make {
  backend : string;
  database : string;
  database_url : option string;
  database_name : option string;
  connection_status : string;
  collections : list string
}.

(** The two texts of lines 57 and 58. *)
Definition set_text : string := "✅ Set".
Definition not_set_text : string := "❌ Not Set".

Definition initial : t :=
  Make "✅ Running" "❌ Not Available" None None "Not Connected" [].

(** [response["database"] = v], and likewise for the other keys. *)
Definition set_database (v : string) (r : t) : t :=
  Make (backend r) v (database_url r) (database_name r) (connection_status r)
       (collections r).

Definition set_database_url (v : string) (r : t) : t :=
  Make (backend r) (database r) (Some v) (database_name r) (connection_status r)
       (collections r).

Definition set_database_name (v : string) (r : t) : t :=
  Make (backend r) (database r) (database_url r) (Some v) (connection_status r)
       (collections r).

Definition set_connection_status (v : string) (r : t) : t :=
  Make (backend r) (database r) (database_url r) (database_name r) v
       (collections r).

Definition set_collections (v : list string) (r : t) : t :=
  Make (backend r) (database r) (database_url r) (database_name r)
       (connection_status r) v.

End Diagnostics.

(** [text[:n]] *)
Definition first_chars (n : nat) (text : string) : string := substring 0 n text.

(** [db.list_collection_names()]: one round trip; [names] are the
    collections the database holds. *)
Definition list_collection_names (names : list string) : M (list string) :=
  Collection.operation (λ ds, (Return names, ds)).

(** Lines 29 to 59.  [name] is [db.name], [names] what the database would
    list, and the last two arguments are what [os.getenv] returns for
    [DATABASE_URL] and [DATABASE_NAME].  The handler of the outer [try] is
    given the response as it was on entry. *)
Definition test_database (name : string) (names : list string)
    (DATABASE_URL DATABASE_NAME : option string) : M Diagnostics.t :=
  let response := Diagnostics.initial in
  response ←
    try_except
      (none ← db_is_none;
       if (none : bool) then
         mret (Diagnostics.set_database "⚠️  Available but not initialized" response)
       else
         let response := Diagnostics.set_database "✅ Available" response in
         let response := Diagnostics.set_database_url "✅ Configured" response in
         let response := Diagnostics.set_database_name name response in
         let response := Diagnostics.set_connection_status "Connected" response in
         try_except
           (collections ← list_collection_names names;
            let response := Diagnostics.set_collections (take 10 collections) response in
            mret (Diagnostics.set_database "✅ Connected & Working" response))
           (λ e, mret (Diagnostics.set_database
                         ("⚠️  Connected but Error: " +:+ first_chars 50 (exn_str e)) response)))
      (λ e, mret (Diagnostics.set_database
                    ("❌ Error: " +:+ first_chars 50 (exn_str e)) response));
  let response :=
    Diagnostics.set_database_url
      (if str_bool DATABASE_URL then Diagnostics.set_text else Diagnostics.not_set_text) response in
  let response :=
    Diagnostics.set_database_name
      (if str_bool DATABASE_NAME then Diagnostics.set_text else Diagnostics.not_set_text) response in
  mret response.

(** ** More vocabulary *)

(** A criterion that is omitted, or given without metacharacters. *)
Definition plain_or_absent (o : option string) : bool :=
  match o with
  | Some text => Regex.plain text
  | None => true
  end.

(** The record satisfies every criterion that is supplied: an omitted or
    empty [q] or [category] and omitted bounds ask for nothing. *)
Definition selected_by (q category : option string) (lo hi : option float)
    (d : document) : bool :=
  (if str_bool q then Criteria.term_occurs (default "" q) d else true)
  && (if str_bool category then Criteria.category_is (default "" category) d else true)
  && match lo, hi with
     | None, None => true
     | _, _ => Criteria.price_within lo hi d
     end.

(** The [ObjectId] a record carries, if it carries one. *)
Definition oid_of (d : document) : option ObjectId :=
  match d !! "_id" with
  | Some (BOid o) => Some o
  | _ => None
  end.

(** Every record conforms to the data model and carries a twelve-byte id
    of its own. *)
Definition well_kept `{FloatText} (ds : list document) : bool :=
  forallb Shape.conforming ds
  && forallb (λ d, match oid_of d with
                   | Some o => Oid.twelve_bytes o
                   | None => false
                   end) ds
  && bool_decide (NoDup (omap oid_of ds)).

(** ** Records and criteria the store treats as the model does

    The model of the store compares letters as ASCII and bytes as
    characters; the store folds the case of other letters too.  The two
    agree on ASCII texts. *)

Definition is_ascii (c : ascii) : bool := (N_of_ascii c <? 128)%N.

Definition ascii_text (text : string) : bool := Text.forall_chars is_ascii text.

(** A criterion that is omitted, or given in ASCII. *)
Definition ascii_or_absent (o : option string) : bool :=
  match o with
  | Some text => ascii_text text
  | None => true
  end.

(** The texts the record holds under the searched fields are ASCII. *)
Definition ascii_fields (d : document) : bool :=
  forallb (λ k, match d !! k with
                | Some (BStr text) => ascii_text text
                | _ => true
                end) Criteria.searched_fields.

(** The category of the record, if it is a text, is ASCII and has no line
    feed in it. *)
Definition one_line_category (d : document) : bool :=
  match d !! "category" with
  | Some (BStr text) =>
      ascii_text text
      && negb (Text.exists_char (λ c, bool_decide (c = Text.LF)) text)
  | _ => true
  end.

(** The price of the record, if it has one, is a double other than NaN:
    what the creation of a validated payload stores. *)
Definition double_price (d : document) : bool :=
  match d !! "price" with
  | Some (BDouble p) => negb (is_nan p)
  | Some _ => false
  | None => true
  end.

(** The record stores a double as its price, and it lies within the
    bounds that are given, by the comparison of floats. *)
Definition price_between (lo hi : option float) (d : document) : bool :=
  match d !! "price" with
  | Some (BDouble p) =>
      match lo with
      | Some m => (m <=? p)%float
      | None => true
      end
      && match hi with
         | Some m => (p <=? m)%float
         | None => true
         end
  | _ => false
  end.

(** The record satisfies every criterion that is supplied: the term
    occurs in one of its four texts, its category is the given one, its
    price lies within the bounds.  An omitted or empty [q] or [category]
    and omitted bounds ask for nothing. *)
Definition satisfies (q category : option string) (lo hi : option float)
    (d : document) : bool :=
  (if str_bool q then Criteria.term_occurs (default "" q) d else true)
  && (if str_bool category
      then Criteria.category_equals (default "" category) d else true)
  && match lo, hi with
     | None, None => true
     | _, _ => price_between lo hi d
     end.

(** What the supplied criteria look at in the record is of the kind
    above: ASCII texts for a term, a one-line ASCII category for a
    category, a double for a price bound. *)
Definition plainly_kept (q category : option string) (lo hi : option float)
    (d : document) : bool :=
  (if str_bool q then ascii_fields d else true)
  && (if str_bool category then one_line_category d else true)
  && match lo, hi with
     | None, None => true
     | _, _ => double_price d
     end.

(** ** Records that project

    The kinds of values under which both read paths build a Product: the
    name and the category are texts; the description, the location and
    the image are texts or null; the price is a number [float] accepts.
    Any of the six may be missing, and the identifier may be any value or
    missing. *)
Module Fields.

Definition typed `{FloatText} (d : document) : bool :=
  Shape.is_text (d !! "name") && Shape.is_optional_text (d !! "description")
  && Shape.is_number (d !! "price") && Shape.is_text (d !! "category")
  && Shape.is_optional_text (d !! "location")
  && Shape.is_optional_text (d !! "image").


(** The identifier as the listing writes it: the same, but the empty
    text when the record holds no identifier, or a falsy one. *)
Definition listed_id `{FloatText} (d : document) : string :=
  if py_bool (get d "_id") then py_str (get d "_id") else "".

(** The Product with a given identifier and the fields of the record,
    the missing ones filled in. *)
Definition product_with `{FloatText} (id : string) (d : document) : ProductOut.t :=
  ProductOut.Make id (Shape.text_or d "name" "") (Shape.optional_text d "description")
    (Shape.price_or_0 d) (Shape.text_or d "category" "")
    (Shape.optional_text d "location") (Shape.optional_text d "image")
    (Shape.in_stock_or_true d).


Definition listed `{FloatText} (d : document) : ProductOut.t :=
  product_with (listed_id d) d.

End Fields.

(** * Properties *)

(** ** Patterns without metacharacters *)

Module RegexFacts.
Import Text Regex.

Ltac each_char c :=
  destruct c as [[|] [|] [|] [|] [|] [|] [|] [|]].

Lemma plain_char_token c :
  plain_char c = true ->
  bool_decide (c = "\"%char) = false /\ token_of c = TAtom (Lit c).
Proof. each_char c; vm_compute; intros; try discriminate; split; reflexivity. Qed.

Lemma same_char_LF y : same_char true LF y = bool_decide (y = LF).
Proof. each_char y; vm_compute; reflexivity. Qed.

Lemma append_cons (c : ascii) (s t : string) : String c s +:+ t = String c (s +:+ t).
Proof. reflexivity. Qed.

Lemma append_empty_r (s : string) : s +:+ "" = s.
Proof. induction s as [|c s IH]; [reflexivity|]. by rewrite append_cons, IH. Qed.

Lemma tokens_plain_then (q rest : string) :
  plain q = true ->
  tokens (q +:+ rest) =
    (((λ c, TAtom (Lit c)) <$> list_ascii_of_string q) ++ tokens rest)%list.
Proof.
  induction q as [|c q IH]; [reflexivity|].
  intros [Hc Hq]%andb_prop. fold (plain q) in Hq.
  rewrite append_cons. cbn [tokens list_ascii_of_string fmap list_fmap app].
  destruct (plain_char_token c Hc) as [-> ->].
  f_equal. by apply IH.
Qed.

Lemma tokens_plain (q : string) :
  plain q = true ->
  tokens q = (λ c, TAtom (Lit c)) <$> list_ascii_of_string q.
Proof.
  intros Hq. generalize (tokens_plain_then q "" Hq).
  rewrite append_empty_r. cbn [tokens]. by rewrite app_nil_r.
Qed.

Lemma parse_items_lits (cs : list ascii) :
  parse_items ((λ c, TAtom (Lit c)) <$> cs) =
    Some ((λ c, (Lit c, Once)) <$> cs, false).
Proof.
  induction cs as [|c cs IH]; [reflexivity|].
  cbn [fmap list_fmap parse_items] in *.
  destruct cs as [|c' cs]; [reflexivity|].
  cbn [fmap list_fmap] in *. by rewrite IH.
Qed.

Lemma parse_items_lits_dollar (cs : list ascii) :
  parse_items (((λ c, TAtom (Lit c)) <$> cs) ++ [TDollar]) =
    Some ((λ c, (Lit c, Once)) <$> cs, true).
Proof.
  induction cs as [|c cs IH]; [reflexivity|].
  cbn [fmap list_fmap parse_items app] in *.
  destruct cs as [|c' cs]; [reflexivity|].
  cbn [fmap list_fmap app] in *. by rewrite IH.
Qed.

(** A plain term compiles to the sequence of its characters. *)
Lemma compile_plain (q : string) :
  plain q = true -> compile q = Compiled (Pattern false (lits q) false).
Proof.
  intros Hq. unfold compile, parse. rewrite (tokens_plain q Hq).
  destruct (list_ascii_of_string q) as [|c cs] eqn:E.
  - unfold lits. rewrite E. reflexivity.
  - unfold lits. rewrite E.
    pose proof (parse_items_lits (c :: cs)) as P.
    cbn [fmap list_fmap] in *. by rewrite P.
Qed.

(** A plain term between [^] and [$] compiles to the anchored sequence
    of its characters. *)
Lemma compile_anchored (c : string) :
  plain c = true ->
  compile ("^" +:+ c +:+ "$") = Compiled (Pattern true (lits c) true).
Proof.
  intros Hc. unfold compile, parse.
  change (tokens ("^" +:+ c +:+ "$")) with (TCaret :: tokens (c +:+ "$")).
  rewrite (tokens_plain_then c "$" Hc).
  change (tokens "$") with [TDollar].
  by rewrite parse_items_lits_dollar.
Qed.

Lemma match_here_lits (q text : string) :
  match_here true (lits q) false text = prefix_ci q text.
Proof.
  revert text. induction q as [|a q IH]; intros text; [reflexivity|].
  destruct text as [|b text]; [reflexivity|].
  cbn. f_equal. apply IH.
Qed.

Lemma search_from_lits (q text : string) :
  search_from true (lits q) false text = substring_ci q text.
Proof.
  induction text as [|b text IH]; cbn [search_from substring_ci];
    rewrite match_here_lits; [reflexivity|]. by rewrite IH.
Qed.

Lemma append_empty_l (s : string) : "" +:+ s = s.
Proof. reflexivity. Qed.

Lemma match_here_lits_eol (c text : string) :
  match_here true (lits c) true text =
    equal_ci c text || equal_ci (c +:+ String LF "") text.
Proof.
  revert text. induction c as [|a c IH]; intros text.
  - rewrite append_empty_l.
    destruct text as [|y [|z text]];
      cbn [match_here lits fmap list_fmap list_ascii_of_string at_end equal_ci orb].
    + reflexivity.
    + rewrite same_char_LF. by rewrite andb_true_r.
    + by rewrite andb_false_r.
  - destruct text as [|y text]; [reflexivity|].
    rewrite append_cons.
    cbn [match_here lits fmap list_fmap list_ascii_of_string equal_ci atom_matches].
    rewrite <- andb_orb_distrib_r. f_equal. apply IH.
Qed.

Lemma caseless_i : caseless "i" = true.
Proof. reflexivity. Qed.

End RegexFacts.

(** ** Filters and the collection *)

Module StoreFacts.

Lemma dict_bool_empty {V} : dict_bool (∅ : gmap string V) = false.
Proof. unfold dict_bool. by rewrite map_to_list_empty. Qed.

Lemma dict_bool_lookup {V} (m : gmap string V) k v :
  m !! k = Some v -> dict_bool m = true.
Proof.
  intros Hk. unfold dict_bool.
  destruct (map_to_list m) as [|kv l] eqn:E; [|reflexivity].
  apply map_to_list_empty_iff in E. subst m. by rewrite lookup_empty in Hk.
Qed.

Lemma dict_bool_insert {V} (m : gmap string V) k v :
  dict_bool (<[k := v]> m) = true.
Proof. apply (dict_bool_lookup _ k v), lookup_insert_eq. Qed.

Lemma matches_empty d : Mongo.matches ∅ d = true.
Proof. apply bool_decide_eq_true, map_Forall_empty. Qed.

Lemma matches_insert (f : filter) k cl d :
  f !! k = None ->
  Mongo.matches (<[k := cl]> f) d = Mongo.clause_matches k cl d && Mongo.matches f d.
Proof.
  intros Hk. apply eq_true_iff_eq. unfold Mongo.matches.
  rewrite andb_true_iff, !bool_decide_eq_true.
  by apply (map_Forall_insert (λ k cl, Mongo.clause_matches k cl d = true)).
Qed.

Lemma alt_matches_singleton k c d :
  Mongo.alt_matches {[k := c]} d = Mongo.cond_matches c (d !! k).
Proof.
  apply eq_true_iff_eq. unfold Mongo.alt_matches.
  rewrite bool_decide_eq_true.
  apply (map_Forall_singleton (λ k c, Mongo.cond_matches c (d !! k) = true)).
Qed.

Lemma filter_all_empty p : Mongo.filter_all p ∅ = true.
Proof. apply bool_decide_eq_true, map_Forall_empty. Qed.

Lemma filter_all_insert p (f : filter) k cl :
  f !! k = None ->
  Mongo.filter_all p (<[k := cl]> f) = Mongo.clause_all p cl && Mongo.filter_all p f.
Proof.
  intros Hk. apply eq_true_iff_eq. unfold Mongo.filter_all.
  rewrite andb_true_iff, !bool_decide_eq_true.
  by apply (map_Forall_insert (λ _ cl, Mongo.clause_all p cl = true)).
Qed.

Lemma alt_all_singleton (p : cond -> bool) k c :
  bool_decide (map_Forall (λ _ c, p c = true) ({[k := c]} : gmap string cond)) = p c.
Proof.
  apply eq_true_iff_eq. rewrite bool_decide_eq_true.
  apply (map_Forall_singleton (λ _ c, p c = true)).
Qed.

(** A reachable server answers [find] with the first [limit] matching
    documents, in natural order. *)
Lemma find_reachable (f : filter) (limit : Z) (s : store) :
  reachable s = true ->
  Collection.find f limit (Some s) =
    (Collection.check_filter f
       (Return (take (Z.to_nat limit) (List.filter (Mongo.matches f) (documents s)))),
     Some (Collection.send s)).
Proof.
  intros Hr. unfold Collection.find, Collection.operation, Collection.send.
  by rewrite Hr.
Qed.

Lemma find_one_reachable (f : filter) (s : store) :
  reachable s = true ->
  Collection.find_one f (Some s) =
    (Collection.check_filter f
       (Return (head (List.filter (Mongo.matches f) (documents s)))),
     Some (Collection.send s)).
Proof.
  intros Hr. unfold Collection.find_one, Collection.operation, Collection.send.
  by rewrite Hr.
Qed.

Lemma check_filter_ok {A} (f : filter) (r : result A) :
  Mongo.filter_all Mongo.interpreted f = true ->
  Mongo.filter_all Mongo.well_formed f = true ->
  Collection.check_filter f r = r.
Proof. intros H1 H2. unfold Collection.check_filter. by rewrite H1, H2. Qed.

(** An unreachable server fails every operation. *)
Lemma operation_unreachable {A} (f : list document -> result A * list document) s :
  reachable s = false ->
  Collection.operation f (Some s) =
    (Raise Collection.unreachable, Some (Collection.send s)).
Proof. intros Hr. unfold Collection.operation. by rewrite Hr. Qed.

End StoreFacts.


Section ListProducts.
Context `{FloatText}.
Import StoreFacts.

(** What [list_products] answers on a configured, reachable store. *)
Lemma list_products_reachable s q category min_price max_price limit :
  reachable s = true ->
  list_products q category min_price max_price limit (Some s) =
    (match Collection.check_filter (filter_q q category min_price max_price)
             (Return (take (Z.to_nat limit)
                (List.filter (Mongo.matches (filter_q q category min_price max_price))
                             (documents s)))) with
     | Return docs => for_each product_out_listed docs
     | Raise e => Raise e
     end,
     Some (Collection.send s)).
Proof.
  intros Hr. unfold list_products, get_documents.
  unfold mbind, M_bind, bind, db_is_none. cbn beta iota.
  rewrite (find_reachable _ _ _ Hr).
  by destruct (Collection.check_filter _ _).
Qed.

Lemma list_products_unconfigured q category min_price max_price limit :
  list_products q category min_price max_price limit None =
    (Raise (HTTPException 500 "Database not available"), None).
Proof. reflexivity. Qed.

Lemma filter_q_term (q : string) :
  q ≠ "" ->
  filter_q (Some q) None None None =
    <["$or" := Or [ {["name" := Regex q "i"]};
                    {["description" := Regex q "i"]};
                    {["category" := Regex q "i"]};
                    {["location" := Regex q "i"]} ]]> ∅.
Proof.
  intros Hq. unfold filter_q, str_bool.
  rewrite (bool_decide_eq_false_2 _ Hq). reflexivity.
Qed.

Lemma filter_q_category (c : string) :
  c ≠ "" ->
  filter_q None (Some c) None None =
    <["category" := Field (Regex ("^" +:+ c +:+ "$") "i")]> ∅.
Proof.
  intros Hc. unfold filter_q, str_bool.
  rewrite (bool_decide_eq_false_2 _ Hc). reflexivity.
Qed.


Lemma filter_q_price (lo hi : option float) :
  is_Some lo ∨ is_Some hi ->
  filter_q None None lo hi = <["price" := Field (Compare (price_filter lo hi))]> ∅.
Proof.
  intros Hb. unfold filter_q, str_bool.
  change (match hi with
          | Some m => <["$lte":=m]> match lo with
                                    | Some m0 => <["$gte":=m0]> ∅
                                    | None => ∅
                                    end
          | None => match lo with
                    | Some m => <["$gte":=m]> ∅
                    | None => ∅
                    end
          end) with (price_filter lo hi).
  assert (dict_bool (price_filter lo hi) = true) as ->; [|reflexivity].
  unfold price_filter.
  destruct hi as [b|]; [apply dict_bool_insert|].
  destruct lo as [a|]; [apply dict_bool_insert|].
  destruct Hb as [[? ?]|[? ?]]; discriminate.
Qed.

Lemma price_filter_gte lo hi : price_filter lo hi !! "$gte" = lo.
Proof. by destruct lo, hi. Qed.

Lemma price_filter_lte lo hi : price_filter lo hi !! "$lte" = hi.
Proof. by destruct lo, hi. Qed.

End ListProducts.

(** ** Free-text search *)

Section SearchTerm.
Context `{FloatText}.
Import StoreFacts RegexFacts.

(** On a text field, a plain term used as a caseless pattern finds exactly
    its caseless occurrences; other values never match. *)
Lemma regex_plain_term (q : string) (v : option bson) :
  Regex.plain q = true ->
  Mongo.cond_matches (Regex q "i") v =
    match v with
    | Some (BStr text) => Text.substring_ci q text
    | _ => false
    end.
Proof.
  intros Hq. unfold Mongo.cond_matches, Mongo.regex_matches.
  rewrite (compile_plain q Hq), caseless_i. unfold Regex.search. cbn [Regex.bol].
  destruct v as [[]|]; try reflexivity. apply search_from_lits.
Qed.

Lemma matches_term (q : string) (d : document) :
  q ≠ "" -> Regex.plain q = true ->
  Mongo.matches (filter_q (Some q) None None None) d = Criteria.term_occurs q d.
Proof.
  intros Hne Hq. rewrite (filter_q_term q Hne).
  rewrite matches_insert by apply lookup_empty.
  rewrite matches_empty, andb_true_r.
  unfold Mongo.clause_matches, Criteria.term_occurs, Criteria.searched_fields.
  cbn [existsb]. rewrite !alt_matches_singleton, !(regex_plain_term q _ Hq).
  reflexivity.
Qed.

Lemma term_filter_checked {A} (q : string) (r : result A) :
  q ≠ "" -> Regex.plain q = true ->
  Collection.check_filter (filter_q (Some q) None None None) r = r.
Proof.
  intros Hne Hq. rewrite (filter_q_term q Hne).
  apply check_filter_ok;
    (rewrite filter_all_insert by apply lookup_empty;
     rewrite filter_all_empty, andb_true_r;
     cbn [Mongo.clause_all forallb]; rewrite !alt_all_singleton;
     cbn [Mongo.interpreted Mongo.well_formed];
     by rewrite (compile_plain q Hq)).
Qed.

End SearchTerm.

(** ** Category and price criteria *)

Section CategoryAndPrice.
Context `{FloatText}.
Import StoreFacts RegexFacts.

Lemma regex_anchored_category (c : string) (v : option bson) :
  Regex.plain c = true ->
  Mongo.cond_matches (Regex ("^" +:+ c +:+ "$") "i") v =
    match v with
    | Some (BStr text) =>
        Text.equal_ci c text || Text.equal_ci (c +:+ String Text.LF "") text
    | _ => false
    end.
Proof.
  intros Hc. unfold Mongo.cond_matches, Mongo.regex_matches.
  rewrite (compile_anchored c Hc), caseless_i. unfold Regex.search.
  cbn [Regex.bol Regex.items Regex.eol].
  destruct v as [[]|]; try reflexivity. apply match_here_lits_eol.
Qed.

Lemma matches_category (c : string) (d : document) :
  c ≠ "" -> Regex.plain c = true ->
  Mongo.matches (filter_q None (Some c) None None) d = Criteria.category_is c d.
Proof.
  intros Hne Hc. rewrite (filter_q_category c Hne).
  rewrite matches_insert by apply lookup_empty.
  rewrite matches_empty, andb_true_r.
  unfold Mongo.clause_matches, Criteria.category_is.
  apply (regex_anchored_category c _ Hc).
Qed.

Lemma category_filter_checked {A} (c : string) (r : result A) :
  c ≠ "" -> Regex.plain c = true ->
  Collection.check_filter (filter_q None (Some c) None None) r = r.
Proof.
  intros Hne Hc. rewrite (filter_q_category c Hne).
  apply check_filter_ok;
    (rewrite filter_all_insert by apply lookup_empty;
     rewrite filter_all_empty, andb_true_r;
     cbn [Mongo.clause_all Mongo.interpreted Mongo.well_formed];
     by rewrite (compile_anchored c Hc)).
Qed.

Lemma matches_price (lo hi : option float) (d : document) :
  is_Some lo ∨ is_Some hi ->
  Mongo.matches (filter_q None None lo hi) d = Criteria.price_within lo hi d.
Proof.
  intros Hb. rewrite (filter_q_price lo hi Hb).
  rewrite matches_insert by apply lookup_empty.
  rewrite matches_empty, andb_true_r.
  unfold Mongo.clause_matches, Mongo.cond_matches, Criteria.price_within.
  rewrite price_filter_gte, price_filter_lte.
  assert (dict_bool (price_filter lo hi) = true) as ->.
  { unfold price_filter. destruct hi as [b|]; [apply dict_bool_insert|].
    destruct lo as [a|]; [apply dict_bool_insert|].
    destruct Hb as [[? ?]|[? ?]]; discriminate. }
  reflexivity.
Qed.

Lemma price_filter_checked {A} (lo hi : option float) (r : result A) :
  is_Some lo ∨ is_Some hi ->
  Collection.check_filter (filter_q None None lo hi) r = r.
Proof.
  intros Hb. rewrite (filter_q_price lo hi Hb).
  apply check_filter_ok;
    (rewrite filter_all_insert by apply lookup_empty;
     by rewrite filter_all_empty).
Qed.

(** On a stored double that is not a NaN, within bounds that are not NaN,
    the price criterion is the comparison of floats. *)
Lemma price_within_double (lo hi p : float) (d : document) :
  d !! "price" = Some (BDouble p) ->
  is_nan p = false ->
  Criteria.price_within (Some lo) (Some hi) d = ((lo <=? p) && (p <=? hi))%float.
Proof.
  intros Hp Hn. unfold Criteria.price_within, Mongo.number_ge, Mongo.number_le.
  by rewrite Hp, Hn, !orb_false_r.
Qed.

End CategoryAndPrice.

(** ** Lookup by identifier *)


Section Lookup.
Context `{FloatText}.
Import StoreFacts.

Lemma has_id_spec o d : has_id o d = true <-> d !! "_id" = Some (BOid o).
Proof.
  unfold has_id, Mongo.cond_matches, Mongo.bson_equal.
  destruct (d !! "_id") as [[]|]; try (split; [discriminate|congruence]).
  rewrite bool_decide_eq_true. split; congruence.
Qed.

Lemma matches_by_id o d : Mongo.matches (by_id o) d = has_id o d.
Proof.
  unfold by_id. rewrite <- insert_empty.
  rewrite matches_insert by apply lookup_empty.
  by rewrite matches_empty, andb_true_r.
Qed.

Lemma by_id_checked {A} o (r : result A) : Collection.check_filter (by_id o) r = r.
Proof.
  unfold by_id. rewrite <- insert_empty.
  apply check_filter_ok;
    (rewrite filter_all_insert by apply lookup_empty; by rewrite filter_all_empty).
Qed.

Lemma found_by_id_not_empty o ds d :
  head (List.filter (has_id o) ds) = Some d -> dict_bool d = true.
Proof.
  intros Hd. apply head_Some_elem_of, list_elem_of_In, filter_In in Hd.
  destruct Hd as [_ Hd%has_id_spec]. by apply (dict_bool_lookup _ _ _ Hd).
Qed.

(** [get_product] on a configured store, case by case. *)
Lemma get_product_configured (s : store) (product_id : string) :
  get_product product_id (Some s) =
    match Oid.parse product_id with
    | None => (Raise (HTTPException 400 "Invalid product id"), Some s)
    | Some o =>
        if reachable s then
          (match head (List.filter (has_id o) (documents s)) with
           | Some d => product_out d
           | None => Raise (HTTPException 404 "Product not found")
           end, Some (Collection.send s))
        else (Raise (HTTPException 400 "Invalid product id"), Some (Collection.send s))
    end.
Proof.
  unfold get_product, ObjectId_new, mbind, M_bind, bind, try_except, db_is_none,
    lift, raise.
  cbn beta iota.
  destruct (Oid.parse product_id) as [o|]; [|reflexivity].
  destruct (reachable s) eqn:Hr.
  - rewrite (find_one_reachable _ _ Hr), by_id_checked.
    rewrite (filter_ext _ _ (matches_by_id o)).
    destruct (head _) as [d|] eqn:Hd; [|reflexivity].
    by rewrite (found_by_id_not_empty _ _ _ Hd).
  - unfold Collection.find_one. by rewrite (operation_unreachable _ _ Hr).
Qed.

Lemma get_product_unconfigured (product_id : string) :
  get_product product_id None =
    (Raise (HTTPException 500 "Database not available"), None).
Proof. reflexivity. Qed.

Lemma py_float_raises v e :
  py_float v = Raise e -> e = TypeError ∨ e = ValueError ∨ e = OverflowError.
Proof.
  destruct v; unfold py_float; try (intros [= <-]; tauto); try discriminate.
  - destruct (is_infinity _); [intros [= <-]; tauto | discriminate].
  - destruct (float_of_str _); [discriminate | intros [= <-]; tauto].
Qed.

Lemma ProductOut_new_raises id n ds p c l i st e :
  ProductOut.new id n ds p c l i st = Raise e -> e = ValidationError.
Proof.
  unfold ProductOut.new, ProductOut.str_field, ProductOut.optional_str_field,
    mbind, result_bind, mret, result_ret.
  destruct n, ds, c, l, i; congruence.
Qed.


End Lookup.

(** ** The read-path projection *)


Section Projection.
Context `{FloatText}.
Import Shape.

Lemma str_field_text d k dflt :
  is_text (d !! k) = true ->
  ProductOut.str_field (get_default d k (BStr dflt)) = Return (text_or d k dflt).
Proof.
  unfold is_text, get_default, text_or.
  by destruct (d !! k) as [[]|].
Qed.

Lemma optional_str_field_text d k :
  is_optional_text (d !! k) = true ->
  ProductOut.optional_str_field (get d k) = Return (optional_text d k).
Proof.
  unfold is_optional_text, get, get_default, optional_text.
  by destruct (d !! k) as [[]|].
Qed.

Lemma py_float_price d :
  is_number (d !! "price") = true ->
  py_float (get_default d "price" (BInt 0)) = Return (price_or_0 d).
Proof.
  unfold is_number, get_default, price_or_0, py_float.
  destruct (d !! "price") as [[]|]; try done.
  - intros Hz%negb_true_iff. by rewrite Hz.
  - intros [x Hx]%bool_decide_eq_true. by rewrite Hx.
Qed.

Lemma in_stock_value d :
  py_bool (get_default d "in_stock" (BBool true)) = in_stock_or_true d.
Proof. unfold get_default, in_stock_or_true. by destruct (d !! "in_stock"). Qed.

Lemma product_out_conforming d :
  conforming d = true -> product_out d = Return (product d).
Proof.
  unfold conforming. rewrite !andb_true_iff.
  intros [[[[[[Hid Hn] Hd] Hp] Hc] Hl] Hi].
  unfold product_out, ProductOut.new.
  rewrite (py_float_price d Hp). cbn [mbind result_bind].
  rewrite (str_field_text d "name" "" Hn), (optional_str_field_text d _ Hd),
    (str_field_text d "category" "" Hc), (optional_str_field_text d _ Hl),
    (optional_str_field_text d _ Hi), in_stock_value.
  cbn [mbind result_bind mret result_ret]. unfold product. do 2 f_equal.
  unfold get, get_default, id_text, is_oid in *.
  by destruct (d !! "_id") as [[]|].
Qed.

Lemma product_out_listed_conforming d :
  conforming d = true -> product_out_listed d = Return (product d).
Proof.
  unfold conforming. rewrite !andb_true_iff.
  intros [[[[[[Hid Hn] Hd] Hp] Hc] Hl] Hi].
  unfold product_out_listed, ProductOut.new.
  rewrite (py_float_price d Hp). cbn [mbind result_bind].
  rewrite (str_field_text d "name" "" Hn), (optional_str_field_text d _ Hd),
    (str_field_text d "category" "" Hc), (optional_str_field_text d _ Hl),
    (optional_str_field_text d _ Hi), in_stock_value.
  cbn [mbind result_bind mret result_ret]. unfold product. do 2 f_equal.
  unfold get, get_default, id_text, is_oid in *.
  destruct (d !! "_id") as [[]|]; try done.
  cbn [py_bool py_str]. by case_bool_decide.
Qed.

End Projection.

(** ** Declared constraints of the query parameters *)


(** ** Insertion and seeding *)


Section Seeding.
Context `{FloatText}.
Import StoreFacts.

Lemma has_name_spec n d : has_name n d = true <-> d !! "name" = Some (BStr n).
Proof.
  unfold has_name, Mongo.cond_matches, Mongo.bson_equal.
  destruct (d !! "name") as [[]|]; try (split; [discriminate|congruence]).
  rewrite bool_decide_eq_true. split; congruence.
Qed.

Lemma matches_by_name n d : Mongo.matches (by_name n) d = has_name n d.
Proof.
  unfold by_name. rewrite <- insert_empty.
  rewrite matches_insert by apply lookup_empty.
  by rewrite matches_empty, andb_true_r.
Qed.

Lemma by_name_checked {A} n (r : result A) : Collection.check_filter (by_name n) r = r.
Proof.
  unfold by_name. rewrite <- insert_empty.
  apply check_filter_ok;
    (rewrite filter_all_insert by apply lookup_empty; by rewrite filter_all_empty).
Qed.

(** [not exists] holds exactly when no document carries the name. *)
Lemma not_doc_by_name n ds :
  not_doc (head (List.filter (has_name n) ds)) = negb (existsb (has_name n) ds).
Proof.
  induction ds as [|d ds IH]; [reflexivity|].
  cbn [List.filter existsb]. destruct (has_name n d) eqn:Hd; [|exact IH].
  cbn [head not_doc orb negb]. apply has_name_spec in Hd.
  by rewrite (dict_bool_lookup _ _ _ Hd).
Qed.

Lemma find_one_by_name n ds ops :
  Collection.find_one (by_name n) (Some (Store ds true ops)) =
    (Return (head (List.filter (has_name n) ds)), Some (Store ds true (S ops))).
Proof.
  rewrite find_one_reachable by reflexivity.
  rewrite by_name_checked. by rewrite (filter_ext _ _ (matches_by_name n)).
Qed.

Lemma model_dump_no_id data : Product.model_dump data !! "_id" = None.
Proof. reflexivity. Qed.

Lemma stored_id o data : stored o data !! "_id" = Some (BOid o).
Proof. apply lookup_insert_eq. Qed.

Lemma stored_name o data : stored o data !! "name" = Some (BStr (Product.name data)).
Proof. reflexivity. Qed.

Lemma has_id_stored o o' data : has_id o (stored o' data) = bool_decide (o' = o).
Proof. unfold has_id. by rewrite stored_id. Qed.

(** Inserting under an id no document carries appends the document. *)
Lemma create_document_fresh o data ds ops :
  existsb (has_id o) ds = false ->
  create_document o "product" data (Some (Store ds true ops)) =
    (Return (hex o), Some (Store (ds ++ [stored o data]) true (S ops))).
Proof.
  intros Hf. unfold create_document, Collection.insert_one, Collection.operation,
    mbind, M_bind, bind.
  cbn [reachable documents operations]. rewrite model_dump_no_id.
  fold (stored o data). unfold get, get_default. rewrite stored_id.
  fold (has_id o). by rewrite Hf.
Qed.

(** Inserting under an id some document carries is refused. *)
Lemma create_document_duplicate o data ds ops :
  existsb (has_id o) ds = true ->
  create_document o "product" data (Some (Store ds true ops)) =
    (Raise (PyMongoError "DuplicateKeyError"), Some (Store ds true (S ops))).
Proof.
  intros Hf. unfold create_document, Collection.insert_one, Collection.operation,
    mbind, M_bind, bind.
  cbn [reachable documents operations]. rewrite model_dump_no_id.
  fold (stored o data). unfold get, get_default. rewrite stored_id.
  fold (has_id o). by rewrite Hf.
Qed.

Lemma Product_new_name p data : Product.new p = Return data -> Product.name data = Payload.name p.
Proof. unfold Product.new. destruct (_ <=? _)%float; [|discriminate]. by intros [= <-]. Qed.

Lemma seed_loop_step new_id i p ps inserted ds ops :
  seed_loop new_id i (p :: ps) inserted (Some (Store ds true ops)) =
    if existsb (has_name (Payload.name p)) ds then
      seed_loop new_id (S i) ps inserted (Some (Store ds true (S ops)))
    else
      match Product.new p with
      | Return data =>
          match create_document (new_id i) "product" data
                  (Some (Store ds true (S ops))) with
          | (Return _, db) => seed_loop new_id (S i) ps (inserted + 1) db
          | (Raise e, db) => (Raise e, db)
          end
      | Raise e => (Raise e, Some (Store ds true (S ops)))
      end.
Proof.
  cbn [seed_loop]. unfold mbind at 1. unfold M_bind, bind.
  rewrite find_one_by_name, not_doc_by_name.
  destruct (existsb _ ds); cbn [negb]; [reflexivity|].
  unfold mbind at 1. unfold M_bind, bind, lift.
  destruct (Product.new p) as [data|e]; [|reflexivity].
  unfold mbind at 1. unfold M_bind, bind. reflexivity.
Qed.

(** When every sample name is already stored, the loop inserts nothing. *)
Lemma seed_loop_nothing_new new_id ps : forall i inserted ds ops,
  (forall p, p ∈ ps -> existsb (has_name (Payload.name p)) ds = true) ->
  seed_loop new_id i ps inserted (Some (Store ds true ops)) =
    (Return inserted, Some (Store ds true (length ps + ops)%nat)).
Proof.
  induction ps as [|p ps IH]; intros i inserted ds ops Hall; [reflexivity|].
  rewrite seed_loop_step, (Hall p) by apply list_elem_of_here.
  rewrite IH by (intros; apply Hall; by apply list_elem_of_further).
  replace (length ps + S ops)%nat with (length (p :: ps) + ops)%nat
    by (cbn [length]; lia).
  reflexivity.
Qed.

(** The loop on samples that build and ids that are fresh. *)
Lemma seed_loop_fresh new_id ps : forall i inserted ds ops,
  (forall p, p ∈ ps -> exists data, Product.new p = Return data) ->
  (forall j, (i <= j < i + length ps)%nat -> existsb (has_id (new_id j)) ds = false) ->
  (forall j k, (i <= j < k)%nat -> (k < i + length ps)%nat -> new_id j ≠ new_id k) ->
  exists added ops',
    seed_loop new_id i ps inserted (Some (Store ds true ops)) =
      (Return (inserted + Z.of_nat (length added)),
       Some (Store (ds ++ added) true ops'))
    /\ (forall p, p ∈ ps -> existsb (has_name (Payload.name p)) (ds ++ added) = true)
    /\ (forall d, d ∈ added ->
          exists p j data, p ∈ ps
            /\ existsb (has_name (Payload.name p)) ds = false
            /\ Product.new p = Return data /\ d = stored (new_id j) data).
Proof.
  induction ps as [|p ps IH]; intros i inserted ds ops Hnew Hunused Hdiff.
  - exists [], ops. rewrite app_nil_r, Z.add_0_r.
    split; [reflexivity|]. split; intros ? Hin; by apply elem_of_nil in Hin.
  - rewrite seed_loop_step. cbn [length] in Hunused, Hdiff.
    destruct (existsb (has_name (Payload.name p)) ds) eqn:Hp.
    + destruct (IH (S i) inserted ds (S ops)) as (added & ops' & Hrun & Hnames & Hadded).
      * intros q Hq. apply Hnew. by apply list_elem_of_further.
      * intros j Hj. apply Hunused. lia.
      * intros j k Hj Hk. apply Hdiff; lia.
      * exists added, ops'. split; [exact Hrun|]. split.
        -- intros q [->|Hq]%elem_of_cons; [|by apply Hnames].
           rewrite existsb_app, Hp. reflexivity.
        -- intros d Hd. destruct (Hadded d Hd) as (q & j & data & Hq & ? & ? & ?).
           exists q, j, data. split; [by apply list_elem_of_further|done].
    + destruct (Hnew p) as [data Hdata]; [apply list_elem_of_here|].
      rewrite Hdata, create_document_fresh by (apply Hunused; lia).
      destruct (IH (S i) (inserted + 1) (ds ++ [stored (new_id i) data])%list (S (S ops)))
        as (added & ops' & Hrun & Hnames & Hadded).
      * intros q Hq. apply Hnew. by apply list_elem_of_further.
      * intros j Hj. rewrite existsb_app, Hunused by lia.
        cbn [existsb orb]. rewrite has_id_stored, orb_false_r.
        apply bool_decide_eq_false. apply Hdiff; lia.
      * intros j k Hj Hk. apply Hdiff; lia.
      * exists (stored (new_id i) data :: added), ops'.
        rewrite <- app_assoc in Hrun, Hnames. cbn [app] in Hrun, Hnames.
        split; [|split].
        -- replace (inserted + Z.of_nat (length (stored (new_id i) data :: added)))
             with (inserted + 1 + Z.of_nat (length added)) by (cbn [length]; lia).
           exact Hrun.
        -- intros q [->|Hq]%elem_of_cons; [|by apply Hnames].
           rewrite existsb_app. cbn [existsb].
           assert (has_name (Payload.name p) (stored (new_id i) data) = true) as ->.
           { apply has_name_spec. rewrite stored_name.
             by rewrite (Product_new_name _ _ Hdata). }
           by rewrite orb_true_r.
        -- intros d [->|Hd]%elem_of_cons.
           ++ exists p, i, data. split; [apply list_elem_of_here|done].
           ++ destruct (Hadded d Hd) as (q & j & data' & Hq & Hnot & ? & ?).
              exists q, j, data'. split; [by apply list_elem_of_further|].
              split; [|done]. rewrite existsb_app in Hnot.
              by apply orb_false_elim in Hnot as [? _].
Qed.

Lemma fresh_ids_spec new_id n ds :
  fresh_ids new_id n ds = true ->
  (forall j, (j < n)%nat -> existsb (has_id (new_id j)) ds = false)
  /\ (forall j k, (j < k)%nat -> (k < n)%nat -> new_id j ≠ new_id k).
Proof.
  unfold fresh_ids. intros [Hd Hu]%andb_prop.
  apply bool_decide_eq_true in Hd. split.
  - intros j Hj. rewrite forallb_forall in Hu.
    apply negb_true_iff, Hu, in_seq. lia.
  - intros j k Hjk Hk Heq.
    assert (j = k); [|lia].
    apply (NoDup_lookup _ j k (new_id j) Hd);
      rewrite list_lookup_fmap, lookup_seq_lt by lia; cbn; congruence.
Qed.

End Seeding.

(** ** Identifiers as text *)

Module OidFacts.
Import Text Oid.

Lemma lower_hex_char c :
  is_lower_hex c = true -> is_space c = false /\ is_hex c = true /\ fold_case c = c.
Proof.
  destruct c as [[|] [|] [|] [|] [|] [|] [|] [|]];
    vm_compute; intros; try discriminate; repeat split; reflexivity.
Qed.

Lemma fromhex_pairs (s : string) :
  (hex_pairs s = true -> fromhex s = Some s)
  /\ (forall c, hex_pairs (String c s) = true -> fromhex (String c s) = Some (String c s)).
Proof.
  induction s as [|d s [IH1 IH2]].
  - split; [reflexivity|]. intros c. cbn. discriminate.
  - split; [apply IH2|]. intros c. cbn [hex_pairs fromhex].
    intros [[Hc Hd]%andb_prop Hs]%andb_prop.
    destruct (lower_hex_char c Hc) as (-> & -> & ->).
    destruct (lower_hex_char d Hd) as (_ & -> & ->).
    cbn [andb]. by rewrite (IH1 Hs).
Qed.

(** The text of a twelve-byte id parses back to the id. *)
Lemma parse_hex (o : ObjectId) : twelve_bytes o = true -> parse (hex o) = Some o.
Proof.
  unfold twelve_bytes, parse. intros [Hl Hp]%andb_prop.
  rewrite Hl. rewrite (proj1 (fromhex_pairs (hex o)) Hp). by destruct o.
Qed.

Lemma hex_char c :
  is_hex c = true -> is_space c = false /\ is_lower_hex (fold_case c) = true.
Proof.
  destruct c as [[|] [|] [|] [|] [|] [|] [|] [|]];
    vm_compute; intros; try discriminate; split; reflexivity.
Qed.

(** [bytes.fromhex] on an even number of hexadecimal digits. *)
Lemma fromhex_digits (s : string) :
  (forall_chars is_hex s = true -> Nat.even (String.length s) = true ->
   exists r, fromhex s = Some r /\ String.length r = String.length s
             /\ hex_pairs r = true)
  /\ (forall c, forall_chars is_hex (String c s) = true ->
        Nat.even (String.length (String c s)) = true ->
        exists r, fromhex (String c s) = Some r
                  /\ String.length r = String.length (String c s)
                  /\ hex_pairs r = true).
Proof.
  induction s as [|d s [IH1 IH2]].
  - split; [intros _ _; by exists ""|]. intros c _. cbn. discriminate.
  - split; [apply IH2|]. intros c. cbn [forall_chars].
    intros [Hc [Hd Hs]%andb_prop]%andb_prop Heven.
    destruct (IH1 Hs) as (r & Hr & Hlen & Hpairs); [exact Heven|].
    destruct (hex_char c Hc) as [Hsc Hlc]. destruct (hex_char d Hd) as [_ Hld].
    exists (String (fold_case c) (String (fold_case d) r)).
    cbn [fromhex]. rewrite Hsc, Hc, Hd, Hr. cbn [andb].
    split; [reflexivity|]. split; [cbn [String.length]; by rewrite Hlen|].
    cbn [hex_pairs]. by rewrite Hlc, Hld, Hpairs.
Qed.

(** [bytes.fromhex] refuses a character that is neither a hexadecimal
    digit nor whitespace, wherever it stands. *)
Lemma fromhex_other_character (s : string) :
  (exists_char (λ c, negb (is_hex c || is_space c)) s = true -> fromhex s = None)
  /\ (forall c, exists_char (λ c, negb (is_hex c || is_space c)) (String c s) = true ->
        fromhex (String c s) = None).
Proof.
  induction s as [|d s [IH1 IH2]].
  - split; [discriminate|]. intros c. cbn [exists_char fromhex].
    rewrite orb_false_r. intros [_ ->]%negb_true_iff%orb_false_elim. reflexivity.
  - split; [apply IH2|]. intros c Hbad. cbn [fromhex].
    destruct (is_space c) eqn:Hsc.
    + apply IH2. cbn [exists_char] in Hbad.
      rewrite Hsc, orb_true_r in Hbad. exact Hbad.
    + destruct (is_hex c) eqn:Hc; [|reflexivity].
      destruct (is_hex d) eqn:Hd; [|reflexivity]. cbn [andb].
      cbn [exists_char] in Hbad. rewrite Hc, Hd in Hbad. cbn [orb negb] in Hbad.
      by rewrite (IH1 Hbad).
Qed.

Lemma parse_other_length (text : string) :
  String.length text ≠ 24%nat -> parse text = None.
Proof. intros Hl. unfold parse. by rewrite bool_decide_eq_false_2. Qed.

Lemma parse_other_character (text : string) :
  exists_char (λ c, negb (is_hex c || is_space c)) text = true -> parse text = None.
Proof.
  intros Hbad. unfold parse. rewrite (proj1 (fromhex_other_character text) Hbad).
  by case_bool_decide.
Qed.

(** A text of 24 hexadecimal digits is read as a twelve-byte id. *)
Lemma parse_hex_digits (text : string) :
  String.length text = 24%nat ->
  forall_chars is_hex text = true ->
  exists o, parse text = Some o /\ twelve_bytes o = true.
Proof.
  intros Hl Hhex.
  destruct (proj1 (fromhex_digits text) Hhex) as (r & Hr & Hlen & Hpairs);
    [by rewrite Hl|].
  exists (OID r). unfold parse, twelve_bytes. rewrite Hr, bool_decide_eq_true_2 by done.
  split; [reflexivity|]. cbn [hex]. rewrite Hpairs, andb_true_r.
  apply bool_decide_eq_true_2. by rewrite Hlen.
Qed.

Lemma twelve_bytes_not_empty (o : ObjectId) : twelve_bytes o = true -> hex o ≠ "".
Proof.
  unfold twelve_bytes. intros [Hl%bool_decide_eq_true _]%andb_prop Heq.
  rewrite Heq in Hl. discriminate.
Qed.

End OidFacts.

(** ** Loops and limits *)

Lemma for_each_length {A B} (f : A -> result B) (l : list A) (out : list B) :
  for_each f l = Return out -> length out = length l.
Proof.
  revert out. induction l as [|a l IH]; intros out; cbn [for_each].
  - by intros [= <-].
  - destruct (f a); [|discriminate].
    destruct (for_each f l); [|discriminate].
    intros [= <-]. cbn [length]. f_equal. by apply IH.
Qed.

Lemma filter_none {A} (p : A -> bool) (l : list A) :
  existsb p l = false -> List.filter p l = [].
Proof.
  induction l as [|a l IH]; [reflexivity|]. cbn [existsb List.filter].
  intros [-> Hl]%orb_false_elim. by apply IH.
Qed.


(** The loop over elements that all succeed is a map. *)
Lemma for_each_returns {A B} (f : A -> result B) (g : A -> B) (l : list A) :
  (forall a, a ∈ l -> f a = Return (g a)) -> for_each f l = Return (g <$> l).
Proof.
  induction l as [|x l IH]; intros Hall; [reflexivity|].
  cbn [for_each]. rewrite (Hall x) by apply list_elem_of_here.
  rewrite IH by (intros; apply Hall; by apply list_elem_of_further). reflexivity.
Qed.

Lemma elem_of_take_filter {A} (p : A -> bool) (n : nat) (l : list A) a :
  a ∈ take n (List.filter p l) -> a ∈ l /\ p a = true.
Proof.
  intros Hin. apply elem_of_take in Hin as (i & Hi & _).
  apply list_elem_of_lookup_2, list_elem_of_In, filter_In in Hi as [Hi ?].
  split; [by apply list_elem_of_In|done].
Qed.

Lemma forallb_elem_of {A} (p : A -> bool) (l : list A) a :
  forallb p l = true -> a ∈ l -> p a = true.
Proof. rewrite forallb_forall. intros Hall Hin%list_elem_of_In. by apply Hall. Qed.

Section Limits.
Context `{FloatText}.

(** Whatever the store and the criteria, a listing never has more
    entries than the limit. *)
Lemma list_products_length q category min_price max_price limit db out :
  fst (list_products q category min_price max_price limit db) = Return out ->
  (length out <= Z.to_nat limit)%nat.
Proof.
  destruct db as [s|]; [|discriminate].
  destruct (reachable s) eqn:Hr.
  - rewrite (list_products_reachable _ _ _ _ _ _ Hr). cbn [fst].
    unfold Collection.check_filter.
    destruct (negb _); [discriminate|]. destruct (negb _); [discriminate|].
    intros Hout%for_each_length. rewrite Hout, length_take. lia.
  - unfold list_products, get_documents, Collection.find, mbind, M_bind, bind,
      db_is_none. cbn beta iota.
    rewrite (StoreFacts.operation_unreachable _ _ Hr). discriminate.
Qed.



End Limits.

(** ** Records that project, and records that do not *)

Section TypedRecords.
Context `{FloatText}.
Import Shape.




(** The body both read paths share, for the identifier [id]. *)
Lemma projection_typed (id : string) d :
  Fields.typed d = true ->
  (price ← py_float (get_default d "price" (BInt 0));
   ProductOut.new id
     (get_default d "name" (BStr "")) (get d "description") price
     (get_default d "category" (BStr "")) (get d "location") (get d "image")
     (py_bool (get_default d "in_stock" (BBool true)))) =
  Return (Fields.product_with id d).
Proof.
  unfold Fields.typed. rewrite !andb_true_iff.
  intros [[[[[Hn Hd] Hp] Hc] Hl] Hi].
  unfold ProductOut.new.
  rewrite (py_float_price d Hp). cbn [mbind result_bind].
  rewrite (str_field_text d "name" "" Hn), (optional_str_field_text d _ Hd),
    (str_field_text d "category" "" Hc), (optional_str_field_text d _ Hl),
    (optional_str_field_text d _ Hi), in_stock_value.
  reflexivity.
Qed.


(** [d_id or ""] *)
Lemma listed_id_or_empty d :
  match (if py_bool (get d "_id") then Some (py_str (get d "_id")) else None) with
  | Some s => if bool_decide (s = "") then "" else s
  | None => ""
  end = Fields.listed_id d.
Proof.
  unfold Fields.listed_id. destruct (py_bool _); [|reflexivity].
  by case_bool_decide.
Qed.



Lemma product_out_listed_typed d :
  Fields.typed d = true -> product_out_listed d = Return (Fields.listed d).
Proof.
  intros Ht. unfold product_out_listed. cbn zeta. rewrite listed_id_or_empty.
  by apply (projection_typed (Fields.listed_id d)).
Qed.



(** The loop of the listing over records that all project. *)
Lemma for_each_listed (docs : list document) :
  forallb Fields.typed docs = true ->
  for_each product_out_listed docs = Return (Fields.listed <$> docs).
Proof.
  intros Hall. apply for_each_returns. intros d Hd.
  apply product_out_listed_typed. by apply (forallb_elem_of _ _ _ Hall).
Qed.

Lemma forallb_take_filter {A} (p f : A -> bool) (n : nat) (l : list A) :
  forallb p l = true -> forallb p (take n (List.filter f l)) = true.
Proof.
  intros Hall. apply forallb_forall. intros a Ha%list_elem_of_In.
  apply elem_of_take_filter in Ha as [Ha _]. by apply (forallb_elem_of _ _ _ Hall).
Qed.

End TypedRecords.

(** ** Criteria on records kept plainly *)

Lemma same_char_line_feed (y : ascii) :
  Text.same_char true Text.LF y = bool_decide (y = Text.LF).
Proof. RegexFacts.each_char y; vm_compute; reflexivity. Qed.

(** A text without a line feed is no text followed by a line feed. *)
Lemma equal_ci_line_feed (c text : string) :
  Text.exists_char (λ y, bool_decide (y = Text.LF)) text = false ->
  Text.equal_ci (c +:+ String Text.LF "") text = false.
Proof.
  revert text. induction c as [|x c IH]; intros text Hno.
  - rewrite RegexFacts.append_empty_l. destruct text as [|y text]; [reflexivity|].
    cbn [Text.equal_ci]. cbn [Text.exists_char] in Hno.
    apply orb_false_elim in Hno as [Hy _].
    by rewrite same_char_line_feed, Hy.
  - rewrite RegexFacts.append_cons. destruct text as [|y text]; [reflexivity|].
    cbn [Text.equal_ci]. cbn [Text.exists_char] in Hno.
    apply orb_false_elim in Hno as [_ Hno].
    by rewrite (IH text Hno), andb_false_r.
Qed.

Lemma category_is_equals (c : string) (d : document) :
  one_line_category d = true ->
  Criteria.category_is c d = Criteria.category_equals c d.
Proof.
  unfold one_line_category, Criteria.category_is, Criteria.category_equals.
  destruct (d !! "category") as [[]|]; try reflexivity.
  intros [_ Hno%negb_true_iff]%andb_prop.
  by rewrite (equal_ci_line_feed c _ Hno), orb_false_r.
Qed.

Lemma price_within_between (lo hi : option float) (d : document) :
  double_price d = true ->
  Criteria.price_within lo hi d = price_between lo hi d.
Proof.
  unfold double_price, Criteria.price_within, price_between,
    Mongo.number_ge, Mongo.number_le.
  destruct (d !! "price") as [[]|]; try discriminate; [|reflexivity].
  intros Hn%negb_true_iff. rewrite Hn.
  destruct lo, hi; cbn [andb]; by rewrite ?orb_false_r.
Qed.

Lemma filter_ext_elem_of {A} (f g : A -> bool) (l : list A) :
  (forall a, a ∈ l -> f a = g a) -> List.filter f l = List.filter g l.
Proof.
  intros Hfg. apply filter_ext_in. intros a Ha%list_elem_of_In. by apply Hfg.
Qed.

Lemma elem_of_listed_filter `{FloatText} (f : document -> bool) (ds : list document)
    (p : ProductOut.t) :
  p ∈ Fields.listed <$> List.filter f ds <->
  exists R, R ∈ ds /\ f R = true /\ p = Fields.listed R.
Proof.
  rewrite list_elem_of_fmap. split.
  - intros (R & -> & HR%list_elem_of_In%filter_In). destruct HR as [HR Hf].
    exists R. by rewrite list_elem_of_In.
  - intros (R & HR & Hf & ->). exists R. split; [reflexivity|].
    apply list_elem_of_In, filter_In. by rewrite <- list_elem_of_In.
Qed.

(** * Properties of the specification *)

(** ** Free-text search (C1) *)

(** C1, as amended.  On a configured, reachable store whose records
    project and hold ASCII texts in the four searched fields, a search
    for a non-empty ASCII term [q] that contains no metacharacter of
    regular expressions returns the Products of the first [limit] stored
    records, in store order, in which [q] occurs, letter case ignored, as
    a substring of the name, the description, the category or the
    location.  When at most [limit] records are such, a Product appears in
    the answer if and only if it is the Product of a stored record in
    which [q] occurs. *)
Theorem search_by_plain_term `{FloatText} (s : store) (q : string) (limit : Z) :
  reachable s = true ->
  1 <= limit <= 100 ->
  q ≠ "" ->
  Regex.plain q = true ->
  ascii_text q = true ->
  forallb ascii_fields (documents s) = true ->
  forallb Fields.typed (documents s) = true ->
  list_products (Some q) None None None limit (Some s) =
    (Return (Fields.listed <$>
               take (Z.to_nat limit)
                 (List.filter (Criteria.term_occurs q) (documents s))),
     Some (Collection.send s))
  /\ ((length (List.filter (Criteria.term_occurs q) (documents s)) <= Z.to_nat limit)%nat ->
      exists out,
        fst (list_products (Some q) None None None limit (Some s)) = Return out
        /\ forall p, p ∈ out <->
             exists R, R ∈ documents s /\ Criteria.term_occurs q R = true
                       /\ p = Fields.listed R).
Proof.
  intros Hr _ Hne Hq _ _ Htyped.
  rewrite (list_products_reachable _ _ _ _ _ _ Hr).
  rewrite (term_filter_checked q _ Hne Hq).
  rewrite (filter_ext _ _ (λ d, matches_term q d Hne Hq)).
  rewrite (for_each_listed _ (forallb_take_filter _ _ _ _ Htyped)).
  split; [reflexivity|]. intros Hfew. eexists. split; [reflexivity|].
  intros p. rewrite (take_ge _ _ Hfew). apply elem_of_listed_filter.
Qed.

Lemma search_by_plain_term_witness :
  list_products (H := Demo.text) (Some "vase") None None None 40
      (Some (Demo.shop [Demo.vase; Demo.basket])) =
    (Return [Demo.vase_out],
     Some (Collection.send (Demo.shop [Demo.vase; Demo.basket]))).
Proof.
  refine (proj1 (search_by_plain_term (H := Demo.text)
                   (Demo.shop [Demo.vase; Demo.basket]) "vase" 40 _ _ _ _ _ _ _)).
  - reflexivity.
  - lia.
  - discriminate.
  - vm_compute. reflexivity.
  - vm_compute. reflexivity.
  - vm_compute. reflexivity.
  - vm_compute. reflexivity.
Defined.

Example search_vase :
  fst (list_products (H := Demo.text) (Some "vase") None None None 40
         (Some (Demo.shop [Demo.vase; Demo.basket]))) =
    Return [Demo.vase_out].
Proof. vm_compute. reflexivity. Qed.

(** C1 as stated fails: the term is a pattern, so [va.e] finds the vase
    although that text occurs in none of its fields; and the vase, in
    which "a" occurs, does not appear when a record that does not project
    is found with it, because the listing then raises. *)
Lemma search_term_is_a_pattern :
  fst (list_products (H := Demo.text) (Some "va.e") None None None 40
         (Some (Demo.shop [Demo.vase]))) = Return [Demo.vase_out]
  /\ Criteria.term_occurs "va.e" Demo.vase = false
  /\ fst (list_products (H := Demo.text) (Some "a") None None None 40
            (Some (Demo.shop [Demo.vase; Demo.unpriced]))) = Raise TypeError
  /\ Criteria.term_occurs "a" Demo.vase = true.
Proof. vm_compute. repeat split; reflexivity. Qed.

(** ** Category (C2) *)

(** C2, as amended.  On a configured, reachable store whose records
    project and hold as their category, if it is a text, an ASCII text
    without a line feed, a search for a non-empty ASCII category [c] that
    contains no metacharacter of regular expressions returns the Products
    of the first [limit] stored records, in store order, whose category is
    a text equal to [c], letter case ignored.  When at most [limit]
    records are such, a Product appears in the answer if and only if it is
    the Product of a stored record of that category; a record whose
    category only contains [c] does not appear. *)
Theorem search_by_plain_category `{FloatText} (s : store) (c : string) (limit : Z) :
  reachable s = true ->
  1 <= limit <= 100 ->
  c ≠ "" ->
  Regex.plain c = true ->
  ascii_text c = true ->
  forallb one_line_category (documents s) = true ->
  forallb Fields.typed (documents s) = true ->
  list_products None (Some c) None None limit (Some s) =
    (Return (Fields.listed <$>
               take (Z.to_nat limit)
                 (List.filter (Criteria.category_equals c) (documents s))),
     Some (Collection.send s))
  /\ ((length (List.filter (Criteria.category_equals c) (documents s)) <= Z.to_nat limit)%nat ->
      exists out,
        fst (list_products None (Some c) None None limit (Some s)) = Return out
        /\ forall p, p ∈ out <->
             exists R, R ∈ documents s /\ Criteria.category_equals c R = true
                       /\ p = Fields.listed R).
Proof.
  intros Hr _ Hne Hc _ Hline Htyped.
  rewrite (list_products_reachable _ _ _ _ _ _ Hr).
  rewrite (category_filter_checked c _ Hne Hc).
  rewrite (filter_ext _ _ (λ d, matches_category c d Hne Hc)).
  rewrite (filter_ext_elem_of (Criteria.category_is c) (Criteria.category_equals c)).
  - rewrite (for_each_listed _ (forallb_take_filter _ _ _ _ Htyped)).
    split; [reflexivity|]. intros Hfew. eexists. split; [reflexivity|].
    intros p. rewrite (take_ge _ _ Hfew). apply elem_of_listed_filter.
  - intros d Hd. apply category_is_equals. by apply (forallb_elem_of _ _ _ Hline).
Qed.

Lemma search_by_plain_category_witness :
  list_products (H := Demo.text) None (Some "ceramics") None None 40
      (Some (Demo.shop [Demo.vase; Demo.basket])) =
    (Return [Demo.vase_out],
     Some (Collection.send (Demo.shop [Demo.vase; Demo.basket]))).
Proof.
  refine (proj1 (search_by_plain_category (H := Demo.text)
                   (Demo.shop [Demo.vase; Demo.basket]) "ceramics" 40 _ _ _ _ _ _ _)).
  - reflexivity.
  - lia.
  - discriminate.
  - vm_compute. reflexivity.
  - vm_compute. reflexivity.
  - vm_compute. reflexivity.
  - vm_compute. reflexivity.
Defined.

(** The scenario of the specification: the lowercase ["ceramics"] finds
    the stored category ["Ceramics"], and a part of it does not. *)
Example search_ceramics :
  fst (list_products (H := Demo.text) None (Some "ceramics") None None 40
         (Some (Demo.shop [Demo.vase; Demo.basket]))) = Return [Demo.vase_out]
  /\ fst (list_products (H := Demo.text) None (Some "ceram") None None 40
            (Some (Demo.shop [Demo.vase; Demo.basket]))) = Return [].
Proof. vm_compute. split; reflexivity. Qed.

(** C2 as stated fails: the category is a pattern, so [c.ramics] finds
    the vase, whose category is a different text; and a record of the
    category "Art" that does not project is not returned for "art": the
    listing raises. *)
Lemma category_is_a_pattern :
  fst (list_products (H := Demo.text) None (Some "c.ramics") None None 40
         (Some (Demo.shop [Demo.vase]))) = Return [Demo.vase_out]
  /\ Criteria.category_equals "c.ramics" Demo.vase = false
  /\ Demo.vase !! "category" = Some (BStr "Ceramics")
  /\ fst (list_products (H := Demo.text) None (Some "art") None None 40
            (Some (Demo.shop [Demo.vase; Demo.unpriced]))) = Raise TypeError
  /\ Criteria.category_equals "art" Demo.unpriced = true.
Proof. vm_compute. repeat split; reflexivity. Qed.

(** In the store's patterns [$] also matches before a line feed that ends
    the text, so a category that ends with one is found by its first
    line; the statement above leaves such categories aside. *)
Example category_before_a_line_feed :
  fst (list_products (H := Demo.text) None (Some "ceramics") None None 40
         (Some (Demo.shop [Demo.bowl]))) = Return [Demo.bowl_out]
  /\ one_line_category Demo.bowl = false.
Proof. vm_compute. split; reflexivity. Qed.

(** ** Price bounds (C6) *)

(** C6, as amended.  On a configured, reachable store whose records
    project and hold as their price, if they hold one, a float other than
    NaN, a search with [min_price], [max_price] or both returns the
    Products of the first [limit] stored records, in store order, that
    hold a price which is at least [min_price] and at most [max_price],
    whichever of the two is given.  When at most [limit] records are
    such, a Product appears in the answer if and only if it is the Product
    of a stored record with a price within the bounds; a record without a
    price does not appear. *)
Theorem search_by_price `{FloatText} (s : store) (lo hi : option float) (limit : Z) :
  reachable s = true ->
  1 <= limit <= 100 ->
  is_Some lo ∨ is_Some hi ->
  forallb double_price (documents s) = true ->
  forallb Fields.typed (documents s) = true ->
  list_products None None lo hi limit (Some s) =
    (Return (Fields.listed <$>
               take (Z.to_nat limit)
                 (List.filter (price_between lo hi) (documents s))),
     Some (Collection.send s))
  /\ ((length (List.filter (price_between lo hi) (documents s)) <= Z.to_nat limit)%nat ->
      exists out,
        fst (list_products None None lo hi limit (Some s)) = Return out
        /\ forall p, p ∈ out <->
             exists R, R ∈ documents s /\ price_between lo hi R = true
                       /\ p = Fields.listed R)
  /\ (forall R, R !! "price" = None -> price_between lo hi R = false).
Proof.
  intros Hr _ Hb Hdouble Htyped.
  rewrite (list_products_reachable _ _ _ _ _ _ Hr).
  rewrite (price_filter_checked lo hi _ Hb).
  rewrite (filter_ext _ _ (λ d, matches_price lo hi d Hb)).
  rewrite (filter_ext_elem_of (Criteria.price_within lo hi) (price_between lo hi)).
  - rewrite (for_each_listed _ (forallb_take_filter _ _ _ _ Htyped)).
    split; [reflexivity|]. split.
    + intros Hfew. eexists. split; [reflexivity|].
      intros p. rewrite (take_ge _ _ Hfew). apply elem_of_listed_filter.
    + intros R HR. unfold price_between. by rewrite HR.
  - intros d Hd. apply price_within_between. by apply (forallb_elem_of _ _ _ Hdouble).
Qed.

Lemma search_by_price_witness :
  list_products (H := Demo.text) None None (Some 1000%float) (Some 2000%float) 40
      (Some (Demo.shop [Demo.vase; Demo.basket])) =
    (Return [Demo.vase_out],
     Some (Collection.send (Demo.shop [Demo.vase; Demo.basket]))).
Proof.
  refine (proj1 (search_by_price (H := Demo.text)
                   (Demo.shop [Demo.vase; Demo.basket])
                   (Some 1000%float) (Some 2000%float) 40 _ _ _ _ _)).
  - reflexivity.
  - lia.
  - left. by eexists.
  - vm_compute. reflexivity.
  - vm_compute. reflexivity.
Defined.

Example search_price_range :
  fst (list_products (H := Demo.text) None None (Some 1000%float) (Some 2000%float) 40
         (Some (Demo.shop [Demo.vase; Demo.basket]))) = Return [Demo.vase_out]
  /\ fst (list_products (H := Demo.text) None None (Some 899%float) None 40
            (Some (Demo.shop [Demo.vase; Demo.basket]))) =
       Return [Demo.vase_out; Demo.basket_out]
  /\ fst (list_products (H := Demo.text) None None None (Some 899%float) 40
            (Some (Demo.shop [Demo.vase; Demo.basket]))) = Return [Demo.basket_out].
Proof. vm_compute. repeat split; reflexivity. Qed.

(** C6 as stated fails: a record without a price reads back with the
    price 0, and yet it is not found between 0 and 10; and the vase, whose
    price 1299 lies between 0 and 2000, does not appear when a record
    that does not project is found with it, because the listing then
    raises. *)
Lemma record_without_price_is_not_found :
  fst (list_products (H := Demo.text) None None None None 40
         (Some (Demo.shop [Demo.sketch]))) = Return [Demo.sketch_out]
  /\ ProductOut.price Demo.sketch_out = 0%float
  /\ ((0 <=? 0) && (0 <=? 10))%float = true
  /\ fst (list_products (H := Demo.text) None None (Some 0%float) (Some 10%float) 40
            (Some (Demo.shop [Demo.sketch]))) = Return []
  /\ fst (list_products (H := Demo.text) None None (Some 0%float) (Some 2000%float) 40
            (Some (Demo.shop [Demo.vase; Demo.nameless]))) = Raise ValidationError
  /\ price_between (Some 0%float) (Some 2000%float) Demo.vase = true.
Proof. vm_compute. repeat split; reflexivity. Qed.

(** ** Single-item lookup (C3, C10) *)

(** C3, as amended.  On a configured, reachable store, the lookup of an
    id text that [ObjectId] refuses fails with the status 400, and the
    lookup of an id text that [ObjectId] accepts, but that denotes the id
    of no stored record, fails with the status 404; the two signals
    differ.  [ObjectId] refuses every text that does not have 24
    characters and every text with a character that is neither a
    hexadecimal digit nor ASCII whitespace; it accepts every text of 24
    hexadecimal digits, as a twelve-byte id. *)
Theorem lookup_invalid_or_missing `{FloatText} (s : store) (product_id : string) :
  reachable s = true ->
  (Oid.parse product_id = None ->
     get_product product_id (Some s) =
       (Raise (HTTPException 400 "Invalid product id"), Some s))
  /\ (forall o, Oid.parse product_id = Some o ->
        existsb (has_id o) (documents s) = false ->
        get_product product_id (Some s) =
          (Raise (HTTPException 404 "Product not found"), Some (Collection.send s)))
  /\ (String.length product_id ≠ 24%nat -> Oid.parse product_id = None)
  /\ (Text.exists_char (λ c, negb (Oid.is_hex c || Oid.is_space c)) product_id = true ->
      Oid.parse product_id = None)
  /\ (String.length product_id = 24%nat ->
      Text.forall_chars Oid.is_hex product_id = true ->
      exists o, Oid.parse product_id = Some o /\ Oid.twelve_bytes o = true)
  /\ status_code_of (A := ProductOut.t) (Raise (HTTPException 400 "Invalid product id"))
     ≠ status_code_of (A := ProductOut.t) (Raise (HTTPException 404 "Product not found")).
Proof.
  intros Hr. rewrite get_product_configured, Hr.
  split; [by intros ->|].
  split; [intros o -> Hnone; by rewrite (filter_none _ _ Hnone)|].
  split; [apply OidFacts.parse_other_length|].
  split; [apply OidFacts.parse_other_character|].
  split; [apply OidFacts.parse_hex_digits | discriminate].
Qed.

Lemma lookup_invalid_or_missing_witness :
  get_product (H := Demo.text) "not-an-id" (Some (Demo.shop [Demo.vase])) =
    (Raise (HTTPException 400 "Invalid product id"), Some (Demo.shop [Demo.vase]))
  /\ get_product (H := Demo.text) (hex Demo.oid2) (Some (Demo.shop [Demo.vase])) =
       (Raise (HTTPException 404 "Product not found"),
        Some (Collection.send (Demo.shop [Demo.vase]))).
Proof.
  split.
  - apply (lookup_invalid_or_missing (H := Demo.text)
             (Demo.shop [Demo.vase]) "not-an-id" eq_refl).
    vm_compute. reflexivity.
  - apply (lookup_invalid_or_missing (H := Demo.text)
             (Demo.shop [Demo.vase]) (hex Demo.oid2) eq_refl) with (o := Demo.oid2).
    + vm_compute. reflexivity.
    + vm_compute. reflexivity.
Defined.

(** C3 as stated fails: a text of 22 hexadecimal digits and two spaces is
    no identifier of the store, which are 24 hexadecimal digits, and yet
    [ObjectId] accepts it, as an id of eleven bytes, and the lookup
    answers 404, not 400. *)
Lemma lookup_of_malformed_id :
  get_product (H := Demo.text) "65f0c0ffee0000000000a0  "
      (Some (Demo.shop [Demo.vase])) =
    (Raise (HTTPException 404 "Product not found"),
     Some (Collection.send (Demo.shop [Demo.vase])))
  /\ Text.forall_chars Oid.is_hex "65f0c0ffee0000000000a0  " = false
  /\ Oid.parse "65f0c0ffee0000000000a0  " = Some (OID "65f0c0ffee0000000000a0")
  /\ Oid.twelve_bytes (OID "65f0c0ffee0000000000a0") = false.
Proof. vm_compute. repeat split; reflexivity. Qed.



(** ** The read-path projection (C5) *)



(** A record whose identifier is the integer 5 reads back with the id
    ["5"], and a record without fields projects too. *)
Example projection_of_other_identifiers :
  product_out (H := Demo.text) (<["_id" := BInt 5]> (<["name" := BStr "Warli Sketch"]> ∅)) =
    Return (ProductOut.Make "5" "Warli Sketch" None 0 "" None None true)
  /\ product_out_listed (H := Demo.text) ∅ =
       Return (ProductOut.Make "" "" None 0 "" None None true)
  /\ product_out (H := Demo.text) ∅ =
       Return (ProductOut.Make "None" "" None 0 "" None None true).
Proof. vm_compute. repeat split; reflexivity. Qed.


(** ** Declared constraints of the parameters (C7) *)


Example query_rejected :
  GET_products (H := Demo.text) (Query None None (Some (-1)%float) None None)
      (Some (Demo.shop [Demo.vase])) =
    (Raise RequestValidationError, Some (Demo.shop [Demo.vase]))
  /\ fst (GET_products (H := Demo.text) (Query None None None (Some (-0.5)%float) None)
            (Some (Demo.shop [Demo.vase]))) = Raise RequestValidationError
  /\ fst (GET_products (H := Demo.text) (Query None None None None (Some 0))
            (Some (Demo.shop [Demo.vase]))) = Raise RequestValidationError
  /\ fst (GET_products (H := Demo.text) (Query None None None None (Some 101))
            (Some (Demo.shop [Demo.vase]))) = Raise RequestValidationError.
Proof. vm_compute. repeat split; reflexivity. Qed.

Example query_capped :
  Demo.count (fst (GET_products (H := Demo.text) (Query None None None None (Some 100))
                     (Some (Demo.shop (replicate 101 Demo.vase))))) = Some 100%nat
  /\ Demo.count (fst (GET_products (H := Demo.text) (Query None None None None None)
                        (Some (Demo.shop (replicate 101 Demo.vase))))) = Some 40%nat.
Proof. vm_compute. split; reflexivity. Qed.

(** ** Empty criteria (C9) *)

(** C9.  An empty [q] or an empty [category] builds the same filter, and
    so gives the same answer on every store, as an omitted one. *)
Theorem empty_text_is_absent `{FloatText} (q category : option string)
    (min_price max_price : option float) (limit : Z) (db : database) :
  filter_q (Some "") category min_price max_price = filter_q None category min_price max_price
  /\ filter_q q (Some "") min_price max_price = filter_q q None min_price max_price
  /\ list_products (Some "") category min_price max_price limit db =
       list_products None category min_price max_price limit db
  /\ list_products q (Some "") min_price max_price limit db =
       list_products q None min_price max_price limit db
  /\ GET_products (Query (Some "") category min_price max_price (Some limit)) db =
       GET_products (Query None category min_price max_price (Some limit)) db
  /\ GET_products (Query q (Some "") min_price max_price (Some limit)) db =
       GET_products (Query q None min_price max_price (Some limit)) db.
Proof.
  assert (forall c lo hi, filter_q (Some "") c lo hi = filter_q None c lo hi) as Hq
    by reflexivity.
  assert (forall q lo hi, filter_q q (Some "") lo hi = filter_q q None lo hi) as Hc
    by reflexivity.
  split; [apply Hq|]. split; [apply Hc|].
  unfold GET_products, list_products. cbn -[filter_q].
  rewrite !Hq, !Hc. done.
Qed.

(** ** Creation and lookup (C8) *)

Section RoundTrip.
Context `{FloatText}.

Lemma product_out_stored o data :
  product_out (stored o data) =
    Return (ProductOut.Make (hex o) (Product.name data) (Product.description data)
              (Product.price data) (Product.category data) (Product.location data)
              (Product.image data) (Product.in_stock data)).
Proof. by destruct data as [n [d|] p c [l|] [i|] st]. Qed.

Lemma create_product_fresh o data ds ops :
  existsb (has_id o) ds = false ->
  create_product o data (Some (Store ds true ops)) =
    (Return (hex o), Some (Store (ds ++ [stored o data]) true (S ops))).
Proof.
  intros Hf. unfold create_product, mbind, M_bind, bind, try_except, db_is_none.
  cbn beta iota. by rewrite (create_document_fresh _ _ _ _ Hf).
Qed.

Lemma get_product_stored o data ds ops :
  Oid.twelve_bytes o = true ->
  existsb (has_id o) ds = false ->
  get_product (hex o) (Some (Store (ds ++ [stored o data]) true ops)) =
    (product_out (stored o data),
     Some (Store (ds ++ [stored o data]) true (S ops))).
Proof.
  intros Ho Hf. rewrite get_product_configured, (OidFacts.parse_hex o Ho).
  cbn [reachable documents]. rewrite List.filter_app, (filter_none _ _ Hf).
  cbn [List.filter app]. rewrite has_id_stored.
  by rewrite bool_decide_eq_true_2.
Qed.

End RoundTrip.

(** C8.  On a configured, reachable store, creating a valid payload under
    a fresh twelve-byte id returns the text of that id, which is not
    empty, and the lookup by that text then returns the fields of the
    payload: the price as a float, an absent [in_stock] as true, absent
    texts as absent. *)
Theorem create_then_lookup `{FloatText} (s : store) (new_id : ObjectId)
    (body : Payload.t) (payload : Product.t) :
  reachable s = true ->
  Oid.twelve_bytes new_id = true ->
  existsb (has_id new_id) (documents s) = false ->
  Product.new body = Return payload ->
  exists s1 s2 : store,
    POST_products new_id body (Some s) = (Return (hex new_id), Some s1)
    /\ hex new_id ≠ ""
    /\ get_product (hex new_id) (Some s1) =
         (Return (ProductOut.Make (hex new_id)
                    (Payload.name body)
                    (Payload.description body)
                    (match Payload.price body with
                     | Int z => float_of_Z z
                     | Float x => x
                     end)
                    (Payload.category body)
                    (Payload.location body)
                    (Payload.image body)
                    (default true (Payload.in_stock body))),
          Some s2).
Proof.
  intros Hr Ho Hf Hnew. destruct s as [ds r ops]. cbn in Hr, Hf. subst r.
  exists (Store (ds ++ [stored new_id payload]) true (S ops)),
         (Store (ds ++ [stored new_id payload]) true (S (S ops))).
  split; [|split].
  - unfold POST_products. rewrite Hnew. by apply create_product_fresh.
  - by apply OidFacts.twelve_bytes_not_empty.
  - rewrite (get_product_stored _ _ _ _ Ho Hf), product_out_stored.
    unfold Product.new in Hnew. destruct (_ <=? _)%float; [|discriminate].
    by injection Hnew as <-.
Qed.

(** The scenario of the specification: a Terracotta Vase created with the
    integer price 1299 and no [in_stock] reads back with the price 1299.0,
    in stock, and without a description. *)
Lemma create_then_lookup_witness :
  exists s1 s2 : store,
    POST_products (H := Demo.text) Demo.oid1 Demo.vase_body (Some (Demo.shop [])) =
      (Return "65f0c0ffee0000000000a001", Some s1)
    /\ "65f0c0ffee0000000000a001" ≠ ""
    /\ get_product (H := Demo.text) "65f0c0ffee0000000000a001" (Some s1) =
         (Return (ProductOut.Make "65f0c0ffee0000000000a001" "Terracotta Vase" None
                    1299%float "Ceramics" None None true),
          Some s2).
Proof.
  apply (create_then_lookup (H := Demo.text) (Demo.shop []) Demo.oid1 Demo.vase_body
           (Product.Make "Terracotta Vase" None 1299%float "Ceramics" None None true)).
  - reflexivity.
  - vm_compute. reflexivity.
  - reflexivity.
  - vm_compute. reflexivity.
Defined.

(** ** Seeding (C4) *)

Lemma samples_build p :
  p ∈ SAMPLE_PRODUCTS -> exists data, Product.new p = Return data.
Proof.
  unfold SAMPLE_PRODUCTS. intros Hp.
  repeat (apply elem_of_cons in Hp as [->|Hp];
          [eexists; vm_compute; reflexivity|]).
  by apply elem_of_nil in Hp.
Qed.

(** C4.  On a configured, reachable store and with fresh ids, the seed
    utility appends one record for each sample whose name no stored
    record carried, and nothing else, and returns how many it appended;
    afterwards every sample name is stored, so that a second invocation
    appends nothing, returns 0 and leaves the same records. *)
Theorem seed_twice `{FloatText} (s : store) (new_id new_id' : nat -> ObjectId) :
  reachable s = true ->
  fresh_ids new_id (length SAMPLE_PRODUCTS) (documents s) = true ->
  exists (added : list document) (s1 s2 : store),
    seed_products new_id (Some s) = (Return (Z.of_nat (length added)), Some s1)
    /\ documents s1 = (documents s ++ added)%list
    /\ (forall d, d ∈ added ->
          exists p j data, p ∈ SAMPLE_PRODUCTS
            /\ existsb (has_name (Payload.name p)) (documents s) = false
            /\ Product.new p = Return data /\ d = stored (new_id j) data)
    /\ (forall p, p ∈ SAMPLE_PRODUCTS ->
          existsb (has_name (Payload.name p)) (documents s1) = true)
    /\ seed_products new_id' (Some s1) = (Return 0, Some s2)
    /\ documents s2 = documents s1
    /\ length (documents s2) = length (documents s1).
Proof.
  intros Hr Hfresh. destruct s as [ds r ops].
  cbn [reachable documents] in Hr, Hfresh. subst r.
  apply fresh_ids_spec in Hfresh as [Hunused Hdiff].
  destruct (seed_loop_fresh new_id SAMPLE_PRODUCTS 0 0 ds ops)
    as (added & ops' & Hrun & Hnames & Hadded).
  - apply samples_build.
  - intros j Hj. apply Hunused. lia.
  - intros j k Hj Hk. apply Hdiff; lia.
  - exists added, (Store (ds ++ added) true ops'),
           (Store (ds ++ added) true (length SAMPLE_PRODUCTS + ops')).
    cbn [documents].
    split; [exact Hrun|]. split; [reflexivity|].
    split; [exact Hadded|]. split; [exact Hnames|].
    split; [|split; reflexivity].
    unfold seed_products, mbind, M_bind, bind, db_is_none. cbn beta iota.
    apply seed_loop_nothing_new. exact Hnames.
Qed.

Lemma seed_twice_witness :
  exists (added : list document) (s1 s2 : store),
    seed_products (H := Demo.text) Demo.sample_id (Some (Demo.shop [Demo.vase])) =
      (Return (Z.of_nat (length added)), Some s1)
    /\ documents s1 = (documents (Demo.shop [Demo.vase]) ++ added)%list
    /\ (forall d, d ∈ added ->
          exists p j data, p ∈ SAMPLE_PRODUCTS
            /\ existsb (has_name (Payload.name p)) (documents (Demo.shop [Demo.vase])) = false
            /\ Product.new p = Return data /\ d = stored (Demo.sample_id j) data)
    /\ (forall p, p ∈ SAMPLE_PRODUCTS ->
          existsb (has_name (Payload.name p)) (documents s1) = true)
    /\ seed_products (H := Demo.text) Demo.sample_id (Some s1) = (Return 0, Some s2)
    /\ documents s2 = documents s1
    /\ length (documents s2) = length (documents s1).
Proof.
  apply (seed_twice (H := Demo.text) (Demo.shop [Demo.vase]) Demo.sample_id Demo.sample_id).
  - reflexivity.
  - vm_compute. reflexivity.
Defined.

(** Seeding a store that holds the vase inserts the five other samples;
    seeding again inserts none. *)
Example seed_counts :
  fst (seed_products (H := Demo.text) Demo.sample_id (Some (Demo.shop [Demo.vase]))) = Return 5
  /\ fst (seed_products (H := Demo.text) Demo.sample_id
            (snd (seed_products (H := Demo.text) Demo.sample_id
                    (Some (Demo.shop [Demo.vase]))))) = Return 0.
Proof. vm_compute. split; reflexivity. Qed.

(** * Further properties of the code *)

(** ** Criteria combined *)

Section Combined.
Context `{FloatText}.
Import StoreFacts RegexFacts.

Lemma str_bool_true o : str_bool o = true -> exists text, o = Some text /\ text ≠ "".
Proof.
  destruct o as [text|]; [|discriminate]. cbn.
  intros Ht%negb_true_iff%bool_decide_eq_false. by exists text.
Qed.

Lemma matches_add_term (q : option string) d :
  plain_or_absent q = true ->
  Mongo.matches
    (if str_bool q then
       <["$or" := Or [ {["name" := Regex (default "" q) "i"]};
                       {["description" := Regex (default "" q) "i"]};
                       {["category" := Regex (default "" q) "i"]};
                       {["location" := Regex (default "" q) "i"]} ]]> ∅
     else ∅) d =
    (if str_bool q then Criteria.term_occurs (default "" q) d else true).
Proof.
  intros Hp. destruct (str_bool q) eqn:Hq; [|apply matches_empty].
  destruct (str_bool_true _ Hq) as (text & -> & Hne). cbn [from_option id plain_or_absent] in *.
  rewrite <- (matches_term text d Hne Hp). by rewrite (filter_q_term text Hne).
Qed.

Lemma matches_add_category (f : filter) (c : option string) d :
  plain_or_absent c = true ->
  f !! "category" = None ->
  Mongo.matches
    (if str_bool c then
       <["category" := Field (Regex ("^" +:+ default "" c +:+ "$") "i")]> f
     else f) d =
    (if str_bool c then Criteria.category_is (default "" c) d else true)
    && Mongo.matches f d.
Proof.
  intros Hp Hf. destruct (str_bool c) eqn:Hc; [|reflexivity].
  destruct (str_bool_true _ Hc) as (text & -> & Hne). cbn [from_option id plain_or_absent] in *.
  rewrite (matches_insert _ _ _ _ Hf). f_equal.
  apply (regex_anchored_category text _ Hp).
Qed.

Lemma dict_bool_price_filter lo hi :
  dict_bool (price_filter lo hi) = match lo, hi with None, None => false | _, _ => true end.
Proof.
  unfold price_filter. destruct hi as [b|]; [by destruct lo; apply dict_bool_insert|].
  destruct lo as [a|]; [apply dict_bool_insert | apply dict_bool_empty].
Qed.

Lemma matches_add_price (f : filter) lo hi d :
  f !! "price" = None ->
  Mongo.matches
    (if dict_bool (price_filter lo hi) then
       <["price" := Field (Compare (price_filter lo hi))]> f
     else f) d =
    match lo, hi with
    | None, None => true
    | _, _ => Criteria.price_within lo hi d
    end && Mongo.matches f d.
Proof.
  intros Hf. rewrite dict_bool_price_filter.
  assert (is_Some lo ∨ is_Some hi ->
          Mongo.matches (<["price" := Field (Compare (price_filter lo hi))]> f) d =
          Criteria.price_within lo hi d && Mongo.matches f d) as Hins.
  { intros Hb. rewrite (matches_insert _ _ _ _ Hf). f_equal.
    unfold Mongo.clause_matches, Mongo.cond_matches, Criteria.price_within.
    rewrite price_filter_gte, price_filter_lte, dict_bool_price_filter.
    destruct (d !! "price"); [|reflexivity].
    destruct lo, hi; try reflexivity. destruct Hb as [[? ?]|[? ?]]; discriminate. }
  destruct lo, hi; try (apply Hins; (by left; eexists) || (by right; eexists)).
  reflexivity.
Qed.

(** The filter built from plain criteria selects the records that satisfy
    all of them. *)
Lemma matches_selected q c lo hi d :
  plain_or_absent q = true -> plain_or_absent c = true ->
  Mongo.matches (filter_q q c lo hi) d = selected_by q c lo hi d.
Proof.
  intros Hq Hc. unfold filter_q, selected_by.
  change (match hi with
          | Some m => <["$lte":=m]> match lo with
                                    | Some m0 => <["$gte":=m0]> ∅
                                    | None => ∅
                                    end
          | None => match lo with
                    | Some m => <["$gte":=m]> ∅
                    | None => ∅
                    end
          end) with (price_filter lo hi).
  rewrite matches_add_price.
  - rewrite (matches_add_category _ c d Hc).
    + rewrite (matches_add_term q d Hq).
      rewrite andb_comm. f_equal. apply andb_comm.
    + by destruct (str_bool q).
  - by destruct (str_bool c), (str_bool q).
Qed.

Lemma filter_all_add (p : cond -> bool) (f : filter) k cl (b : bool) :
  f !! k = None ->
  Mongo.filter_all p (if b then <[k := cl]> f else f) =
    (if b then Mongo.clause_all p cl else true) && Mongo.filter_all p f.
Proof. intros Hf. destruct b; [by apply filter_all_insert | reflexivity]. Qed.

Lemma selected_filter_checked {A} q c lo hi (r : result A) :
  plain_or_absent q = true -> plain_or_absent c = true ->
  Collection.check_filter (filter_q q c lo hi) r = r.
Proof.
  intros Hq Hc.
  assert (forall p, (forall text o, Regex.plain text = true -> p (Regex text o) = true) ->
            (forall text o, Regex.plain text = true ->
               p (Regex ("^" +:+ text +:+ "$") o) = true) ->
            (forall ops, p (Compare ops) = true) ->
            Mongo.filter_all p (filter_q q c lo hi) = true) as Hall.
  { intros p Hterm Hcat Hcmp. unfold filter_q.
    rewrite filter_all_add by (by destruct (str_bool c), (str_bool q)).
    rewrite filter_all_add by (by destruct (str_bool q)).
    rewrite filter_all_add by apply lookup_empty.
    rewrite filter_all_empty, andb_true_r.
    apply andb_true_iff; split; [|apply andb_true_iff; split].
    - destruct (dict_bool _); [apply Hcmp | reflexivity].
    - destruct (str_bool c) eqn:E; [|reflexivity].
      destruct (str_bool_true _ E) as (text & -> & _). by apply Hcat.
    - destruct (str_bool q) eqn:E; [|reflexivity].
      destruct (str_bool_true _ E) as (text & -> & _).
      cbn [Mongo.clause_all forallb from_option id]. rewrite !alt_all_singleton.
      cbn [plain_or_absent] in Hq. by rewrite !Hterm. }
  apply check_filter_ok; apply Hall; try reflexivity.
  - intros text o Hp. cbn. by rewrite (compile_plain text Hp).
  - intros text o Hp. cbn. by rewrite (compile_anchored text Hp).
  - intros text o Hp. cbn. by rewrite (compile_plain text Hp).
  - intros text o Hp. cbn. by rewrite (compile_anchored text Hp).
Qed.

(** The listing for plain criteria, on a reachable store. *)
Lemma list_products_selected s q c lo hi limit :
  reachable s = true ->
  plain_or_absent q = true -> plain_or_absent c = true ->
  list_products q c lo hi limit (Some s) =
    (for_each product_out_listed
       (take (Z.to_nat limit) (List.filter (selected_by q c lo hi) (documents s))),
     Some (Collection.send s)).
Proof.
  intros Hr Hq Hc.
  rewrite (list_products_reachable _ _ _ _ _ _ Hr).
  rewrite (selected_filter_checked _ _ _ _ _ Hq Hc).
  by rewrite (filter_ext _ _ (λ d, matches_selected q c lo hi d Hq Hc)).
Qed.

(** On records kept plainly, the store selects by the criteria as the
    specification words them. *)
Lemma selected_by_satisfies q c lo hi d :
  plainly_kept q c lo hi d = true ->
  selected_by q c lo hi d = satisfies q c lo hi d.
Proof.
  unfold plainly_kept, selected_by, satisfies.
  intros [[_ Hc]%andb_prop Hp]%andb_prop. f_equal; [f_equal|].
  - destruct (str_bool c); [by apply category_is_equals | reflexivity].
  - destruct lo, hi; try reflexivity; by apply price_within_between.
Qed.

Lemma list_products_satisfying s q c lo hi limit :
  reachable s = true ->
  plain_or_absent q = true -> plain_or_absent c = true ->
  forallb (plainly_kept q c lo hi) (documents s) = true ->
  list_products q c lo hi limit (Some s) =
    (for_each product_out_listed
       (take (Z.to_nat limit) (List.filter (satisfies q c lo hi) (documents s))),
     Some (Collection.send s)).
Proof.
  intros Hr Hq Hc Hkept.
  rewrite (list_products_selected s q c lo hi limit Hr Hq Hc).
  rewrite (filter_ext_elem_of (selected_by q c lo hi) (satisfies q c lo hi));
    [reflexivity|].
  intros d Hd. apply selected_by_satisfies. by apply (forallb_elem_of _ _ _ Hkept).
Qed.

(** The handler applies the loop to whatever the store fetched. *)
Lemma list_products_fetched q c lo hi limit db db' docs :
  get_documents "product" (filter_q q c lo hi) limit db = (Return docs, db') ->
  list_products q c lo hi limit db = (for_each product_out_listed docs, db').
Proof.
  intros Hfetch. destruct db as [s|]; [|discriminate].
  unfold list_products, mbind, M_bind, bind, db_is_none, lift. cbn beta iota.
  by rewrite Hfetch.
Qed.

End Combined.

(** X1.  On a configured, reachable store, with a limit from 1 to 100
    and criteria that are omitted, empty, or ASCII texts free of
    metacharacters, and with records that project and hold, where a
    criterion looks, ASCII texts, a one-line category and a float price,
    the listing returns the Products of the first [limit] stored records,
    in store order, that satisfy every supplied criterion at once: the
    term, the category and the price bounds are combined by a logical
    and, and a criterion that is not supplied asks for nothing.  When at
    most [limit] records satisfy them, a Product appears in the answer if
    and only if it is the Product of such a record. *)
Theorem criteria_are_conjoined `{FloatText} (s : store) (q category : option string)
    (min_price max_price : option float) (limit : Z) :
  reachable s = true ->
  1 <= limit <= 100 ->
  plain_or_absent q = true ->
  plain_or_absent category = true ->
  ascii_or_absent q = true ->
  ascii_or_absent category = true ->
  forallb (plainly_kept q category min_price max_price) (documents s) = true ->
  forallb Fields.typed (documents s) = true ->
  list_products q category min_price max_price limit (Some s) =
    (Return (Fields.listed <$>
               take (Z.to_nat limit)
                 (List.filter (satisfies q category min_price max_price) (documents s))),
     Some (Collection.send s))
  /\ ((length (List.filter (satisfies q category min_price max_price) (documents s))
       <= Z.to_nat limit)%nat ->
      exists out,
        fst (list_products q category min_price max_price limit (Some s)) = Return out
        /\ forall p, p ∈ out <->
             exists R, R ∈ documents s
                       /\ satisfies q category min_price max_price R = true
                       /\ p = Fields.listed R).
Proof.
  intros Hr _ Hq Hc _ _ Hkept Htyped.
  rewrite (list_products_satisfying s q category min_price max_price limit Hr Hq Hc Hkept).
  rewrite (for_each_listed _ (forallb_take_filter _ _ _ _ Htyped)).
  split; [reflexivity|]. intros Hfew. eexists. split; [reflexivity|].
  intros p. rewrite (take_ge _ _ Hfew). apply elem_of_listed_filter.
Qed.

Lemma criteria_are_conjoined_witness :
  list_products (H := Demo.text) (Some "a") (Some "ceramics") (Some 1000%float) None 40
      (Some (Demo.shop [Demo.vase; Demo.basket; Demo.plate])) =
    (Return [Demo.vase_out],
     Some (Collection.send (Demo.shop [Demo.vase; Demo.basket; Demo.plate]))).
Proof.
  refine (proj1 (criteria_are_conjoined (H := Demo.text)
                   (Demo.shop [Demo.vase; Demo.basket; Demo.plate])
                   (Some "a") (Some "ceramics") (Some 1000%float) None 40
                   _ _ _ _ _ _ _ _)).
  - reflexivity.
  - lia.
  - vm_compute. reflexivity.
  - vm_compute. reflexivity.
  - vm_compute. reflexivity.
  - vm_compute. reflexivity.
  - vm_compute. reflexivity.
  - vm_compute. reflexivity.
Defined.

(** The vase, the basket and the plate all contain an "a"; the vase and
    the plate are ceramics; only the vase costs 1000 or more. *)
Example search_combined :
  fst (list_products (H := Demo.text) (Some "a") (Some "ceramics") (Some 1000%float) None 40
         (Some (Demo.shop [Demo.vase; Demo.basket; Demo.plate]))) = Return [Demo.vase_out]
  /\ fst (list_products (H := Demo.text) (Some "a") (Some "ceramics") None None 40
            (Some (Demo.shop [Demo.vase; Demo.basket; Demo.plate]))) =
       Return [Demo.vase_out; Demo.plate_out].
Proof. vm_compute. split; reflexivity. Qed.

(** ** Reading leaves the records alone *)

(** X2.  The listing, with or without the check of its parameters, and the
    lookup never change the store, whatever their arguments and whatever
    the state of the store: afterwards the handle is as before, or the
    same store with one more operation sent to it, which has the same
    documents and the same reachability. *)
Theorem reads_do_not_write `{FloatText} (db : database) (r : query)
    (q category : option string) (min_price max_price : option float) (limit : Z)
    (product_id : string) :
  (snd (list_products q category min_price max_price limit db) = db
   ∨ exists s, db = Some s
       /\ snd (list_products q category min_price max_price limit db) =
            Some (Collection.send s))
  /\ (snd (GET_products r db) = db
      ∨ exists s, db = Some s /\ snd (GET_products r db) = Some (Collection.send s))
  /\ (snd (get_product product_id db) = db
      ∨ exists s, db = Some s
          /\ snd (get_product product_id db) = Some (Collection.send s))
  /\ (forall s, documents (Collection.send s) = documents s
                /\ reachable (Collection.send s) = reachable s).
Proof.
  assert (forall q c lo hi l,
            snd (list_products q c lo hi l db) = db
            ∨ exists s, db = Some s
                /\ snd (list_products q c lo hi l db) = Some (Collection.send s)) as Hl.
  { intros q0 c0 lo hi l. destruct db as [s|]; [right|by left].
    exists s. split; [reflexivity|]. destruct (reachable s) eqn:Hr.
    - by rewrite (list_products_reachable _ _ _ _ _ _ Hr).
    - unfold list_products, get_documents, Collection.find, mbind, M_bind, bind,
        db_is_none. cbn beta iota.
      by rewrite (StoreFacts.operation_unreachable _ _ Hr). }
  split; [apply Hl|]. split; [|split].
  - unfold GET_products. destruct (_ && _); [apply Hl | by left].
  - destruct db as [s|]; [|by left]. rewrite get_product_configured.
    destruct (Oid.parse product_id); [|by left].
    right. exists s. split; [reflexivity|]. by destruct (reachable s).
  - by intros s.
Qed.

(** ** Listings of well-kept stores *)

Section Listings.
Context `{FloatText}.

Lemma product_out_listed_raises d e :
  product_out_listed d = Raise e ->
  e = TypeError ∨ e = ValueError ∨ e = OverflowError ∨ e = ValidationError.
Proof.
  unfold product_out_listed.
  destruct (py_float _) as [x|e'] eqn:Hp; cbn.
  - intros He%ProductOut_new_raises. tauto.
  - intros [= <-]. apply py_float_raises in Hp. tauto.
Qed.

(** The loop raises as soon as one element does. *)
Lemma for_each_raises {A B} (f : A -> result B) (l : list A) a e :
  a ∈ l -> f a = Raise e -> exists a' e', a' ∈ l /\ f a' = Raise e' /\ for_each f l = Raise e'.
Proof.
  induction l as [|x l IH]; intros Hin Hf; [by apply elem_of_nil in Hin|].
  cbn [for_each]. destruct (f x) as [b|ex] eqn:Hx.
  - apply elem_of_cons in Hin as [->|Hin]; [congruence|].
    destruct (IH Hin Hf) as (a' & e' & Ha' & Hfa' & ->).
    exists a', e'. split; [by apply list_elem_of_further|done].
  - exists x, ex. split; [apply list_elem_of_here|done].
Qed.

Lemma has_id_oid_of o d : has_id o d = true <-> oid_of d = Some o.
Proof.
  rewrite has_id_spec. unfold oid_of.
  destruct (d !! "_id") as [[]|]; split; congruence.
Qed.

(** Among records with ids of their own, the first record with an id is
    the only one. *)
Lemma first_with_id ds d o :
  NoDup (omap oid_of ds) -> d ∈ ds -> oid_of d = Some o ->
  head (List.filter (has_id o) ds) = Some d.
Proof.
  induction ds as [|x ds IH]; intros Hnd Hin Ho; [by apply elem_of_nil in Hin|].
  cbn [List.filter]. destruct (has_id o x) eqn:Hx.
  - apply has_id_oid_of in Hx. cbn [head].
    apply elem_of_cons in Hin as [->|Hin]; [reflexivity|].
    cbn [omap list_omap] in Hnd. rewrite Hx in Hnd.
    apply NoDup_cons in Hnd as [Hnot _]. exfalso. apply Hnot.
    apply list_elem_of_omap. by exists d.
  - apply elem_of_cons in Hin as [->|Hin].
    + apply has_id_oid_of in Ho. congruence.
    + apply IH; [|done|done]. cbn [omap list_omap] in Hnd.
      destruct (oid_of x); [by apply NoDup_cons in Hnd as [_ ?]|done].
Qed.

Lemma well_kept_spec ds :
  well_kept ds = true ->
  NoDup (omap oid_of ds)
  /\ forall d, d ∈ ds ->
       Shape.conforming d = true
       /\ exists o, oid_of d = Some o /\ Oid.twelve_bytes o = true
                    /\ ProductOut.id (Shape.product d) = hex o.
Proof.
  unfold well_kept. intros [[Hc Ht]%andb_prop Hnd%bool_decide_eq_true]%andb_prop.
  split; [exact Hnd|]. intros d Hd. split; [by apply (forallb_elem_of _ _ _ Hc)|].
  pose proof (forallb_elem_of _ _ _ Ht Hd) as Ho. cbn beta in Ho.
  destruct (oid_of d) as [o|] eqn:E; [|discriminate].
  exists o. split; [reflexivity|]. split; [exact Ho|].
  unfold oid_of in E. cbn [Shape.product ProductOut.id]. unfold Shape.id_text.
  destruct (d !! "_id") as [[]|]; congruence.
Qed.

(** The lookup of a stored record on a reachable, well-kept store. *)
Lemma get_product_found s text o d :
  reachable s = true -> well_kept (documents s) = true ->
  Oid.parse text = Some o -> d ∈ documents s -> oid_of d = Some o ->
  get_product text (Some s) = (Return (Shape.product d), Some (Collection.send s)).
Proof.
  intros Hr Hk Hp Hd Ho. destruct (well_kept_spec _ Hk) as [Hnd Hall].
  rewrite get_product_configured, Hp, Hr, (first_with_id _ _ _ Hnd Hd Ho).
  by rewrite (product_out_conforming d (proj1 (Hall d Hd))).
Qed.

(** The listing of a reachable store whose records conform. *)
Lemma list_products_conforming s q c lo hi limit :
  reachable s = true ->
  plain_or_absent q = true -> plain_or_absent c = true ->
  forallb Shape.conforming (documents s) = true ->
  list_products q c lo hi limit (Some s) =
    (Return (Shape.product <$>
               take (Z.to_nat limit) (List.filter (selected_by q c lo hi) (documents s))),
     Some (Collection.send s)).
Proof.
  intros Hr Hq Hc Hall.
  rewrite (list_products_selected s q c lo hi limit Hr Hq Hc).
  rewrite (for_each_returns _ Shape.product); [reflexivity|].
  intros d [Hd _]%elem_of_take_filter.
  apply product_out_listed_conforming. by apply (forallb_elem_of _ _ _ Hall).
Qed.

End Listings.

(** X3.  The loop of the listing has no handler: whatever the criteria,
    as soon as the projection of one of the records the store fetched
    raises, the whole listing ends in an exception that nothing catches
    (the client sees the status 500), and no part of the list is
    returned. *)
Theorem one_bad_record_fails_the_listing `{FloatText} (db db' : database)
    (q category : option string) (min_price max_price : option float) (limit : Z)
    (docs : list document) (d : document) (e : exn) :
  get_documents "product" (filter_q q category min_price max_price) limit db =
    (Return docs, db') ->
  d ∈ docs ->
  product_out_listed d = Raise e ->
  exists d' e',
    d' ∈ docs
    /\ product_out_listed d' = Raise e'
    /\ list_products q category min_price max_price limit db = (Raise e', db')
    /\ status_code_of (fst (list_products q category min_price max_price limit db))
       = 500.
Proof.
  intros Hfetch Hd He.
  rewrite (list_products_fetched _ _ _ _ _ _ _ _ Hfetch).
  destruct (for_each_raises _ _ _ _ Hd He) as (d' & e' & Hd' & He' & ->).
  exists d', e'. split; [exact Hd'|].
  split; [exact He'|]. split; [reflexivity|].
  cbn [fst]. apply product_out_listed_raises in He'.
  destruct He' as [-> | [-> | [-> | ->]]]; reflexivity.
Qed.

Lemma one_bad_record_fails_the_listing_witness :
  exists d' e',
    d' ∈ [Demo.vase; Demo.unpriced]
    /\ product_out_listed (H := Demo.text) d' = Raise e'
    /\ list_products (H := Demo.text) None None None None 40
         (Some (Demo.shop [Demo.vase; Demo.unpriced])) =
         (Raise e', Some (Collection.send (Demo.shop [Demo.vase; Demo.unpriced])))
    /\ status_code_of
         (fst (list_products (H := Demo.text) None None None None 40
                 (Some (Demo.shop [Demo.vase; Demo.unpriced])))) = 500.
Proof.
  apply (one_bad_record_fails_the_listing (H := Demo.text)
           (Some (Demo.shop [Demo.vase; Demo.unpriced]))
           (Some (Collection.send (Demo.shop [Demo.vase; Demo.unpriced])))
           None None None None 40 [Demo.vase; Demo.unpriced] Demo.unpriced TypeError).
  - vm_compute. reflexivity.
  - apply list_elem_of_further, list_elem_of_here.
  - vm_compute. reflexivity.
Defined.

(** X4.  Whatever the criteria, when every record the store fetched
    projects, the listing does not fail: it returns exactly one Product
    for each fetched record, in the order in which the store returned
    them, and so never more than [limit] of them. *)
Theorem listing_of_typed_records `{FloatText} (db db' : database)
    (q category : option string) (min_price max_price : option float) (limit : Z)
    (docs : list document) :
  get_documents "product" (filter_q q category min_price max_price) limit db =
    (Return docs, db') ->
  forallb Fields.typed docs = true ->
  list_products q category min_price max_price limit db =
    (Return (Fields.listed <$> docs), db')
  /\ length (Fields.listed <$> docs) = length docs
  /\ (length docs <= Z.to_nat limit)%nat.
Proof.
  intros Hfetch Htyped.
  pose proof (list_products_length q category min_price max_price limit db) as Hlen.
  rewrite (list_products_fetched _ _ _ _ _ _ _ _ Hfetch) in *.
  rewrite (for_each_listed _ Htyped) in *.
  split; [reflexivity|]. split; [apply length_fmap|].
  rewrite <- (length_fmap Fields.listed). by apply Hlen.
Qed.

Lemma listing_of_typed_records_witness :
  list_products (H := Demo.text) None (Some "ceramics") None None 1
      (Some (Demo.shop [Demo.vase; Demo.basket; Demo.plate])) =
    (Return [Demo.vase_out],
     Some (Collection.send (Demo.shop [Demo.vase; Demo.basket; Demo.plate]))).
Proof.
  refine (proj1 (listing_of_typed_records (H := Demo.text)
                   (Some (Demo.shop [Demo.vase; Demo.basket; Demo.plate]))
                   (Some (Collection.send (Demo.shop [Demo.vase; Demo.basket; Demo.plate])))
                   None (Some "ceramics") None None 1 [Demo.vase] _ _)).
  - vm_compute. reflexivity.
  - vm_compute. reflexivity.
Defined.

(** ** Lookup of stored records *)

(** X5.  On a configured, reachable store whose records conform to the
    data model and carry twelve-byte ids of their own, the lookup by any
    text that [ObjectId] reads as the id of a stored record returns the
    projection of that record; letter case in the text does not matter. *)
Theorem lookup_of_stored_record `{FloatText} (s : store) (text : string)
    (o : ObjectId) (d : document) :
  reachable s = true ->
  well_kept (documents s) = true ->
  Oid.parse text = Some o ->
  d ∈ documents s ->
  oid_of d = Some o ->
  get_product text (Some s) = (Return (Shape.product d), Some (Collection.send s)).
Proof. apply get_product_found. Qed.

Lemma lookup_of_stored_record_witness :
  get_product (H := Demo.text) "65F0C0FFEE0000000000A001"
      (Some (Demo.shop [Demo.vase; Demo.basket])) =
    (Return (Shape.product (H := Demo.text) Demo.vase),
     Some (Collection.send (Demo.shop [Demo.vase; Demo.basket]))).
Proof.
  apply (lookup_of_stored_record (H := Demo.text)
           (Demo.shop [Demo.vase; Demo.basket]) "65F0C0FFEE0000000000A001"
           Demo.oid1 Demo.vase).
  - reflexivity.
  - vm_compute. reflexivity.
  - vm_compute. reflexivity.
  - apply list_elem_of_here.
  - reflexivity.
Defined.

Example lookup_in_upper_case :
  fst (get_product (H := Demo.text) "65F0C0FFEE0000000000A001"
         (Some (Demo.shop [Demo.vase; Demo.basket]))) = Return Demo.vase_out.
Proof. vm_compute. reflexivity. Qed.

(** X6.  On such a store, every Product of a listing can be fetched: the
    lookup by the [id] of a listed Product, run after the listing, returns
    that same Product. *)
Theorem listed_products_can_be_fetched `{FloatText} (s : store)
    (q category : option string) (min_price max_price : option float) (limit : Z) :
  reachable s = true ->
  1 <= limit <= 100 ->
  plain_or_absent q = true ->
  plain_or_absent category = true ->
  well_kept (documents s) = true ->
  exists out,
    fst (list_products q category min_price max_price limit (Some s)) = Return out
    /\ forall p, p ∈ out ->
         fst (get_product (ProductOut.id p)
                (snd (list_products q category min_price max_price limit (Some s)))) =
           Return p.
Proof.
  intros Hr Hl Hq Hc Hk.
  assert (forallb Shape.conforming (documents s) = true) as Hall.
  { unfold well_kept in Hk. by apply andb_prop in Hk as [[? _]%andb_prop _]. }
  rewrite (list_products_conforming s q category min_price max_price limit Hr Hq Hc Hall).
  eexists. split; [reflexivity|]. cbn [fst snd].
  intros p (d & -> & Hd)%list_elem_of_fmap.
  apply elem_of_take_filter in Hd as [Hd _].
  destruct (well_kept_spec _ Hk) as [_ Hspec].
  destruct (Hspec d Hd) as (_ & o & Ho & Ht & ->).
  by rewrite (get_product_found (Collection.send s) (hex o) o d Hr Hk
                (OidFacts.parse_hex o Ht) Hd Ho).
Qed.

Lemma listed_products_can_be_fetched_witness :
  exists out,
    fst (list_products (H := Demo.text) (Some "a") None None None 40
           (Some (Demo.shop [Demo.vase; Demo.basket]))) = Return out
    /\ forall p, p ∈ out ->
         fst (get_product (H := Demo.text) (ProductOut.id p)
                (snd (list_products (H := Demo.text) (Some "a") None None None 40
                        (Some (Demo.shop [Demo.vase; Demo.basket]))))) =
           Return p.
Proof.
  apply (listed_products_can_be_fetched (H := Demo.text)
           (Demo.shop [Demo.vase; Demo.basket]) (Some "a") None None None 40).
  - reflexivity.
  - lia.
  - reflexivity.
  - reflexivity.
  - vm_compute. reflexivity.
Defined.

(** ** Outcomes of creation *)

(** X7.  [create_product] lets no exception escape.  Without a configured
    store it raises the [HTTPException] 500 and nothing else happens; on an
    unreachable store, or when the insertion is refused, it raises an
    [HTTPException] 400 and the records are as before; otherwise it
    returns the text of the new id and the collection holds one record
    more, at its end. *)
Theorem create_product_outcomes `{FloatText} (new_id : ObjectId)
    (payload : Product.t) (db : database) :
  (db = None ->
     create_product new_id payload db =
       (Raise (HTTPException 500 "Database not available"), None))
  /\ (forall s, db = Some s -> reachable s = false ->
        exists detail,
          create_product new_id payload db =
            (Raise (HTTPException 400 detail), Some (Collection.send s)))
  /\ (forall s, db = Some s -> reachable s = true ->
        existsb (has_id new_id) (documents s) = true ->
        exists detail,
          create_product new_id payload db =
            (Raise (HTTPException 400 detail), Some (Collection.send s)))
  /\ (forall s, db = Some s -> reachable s = true ->
        existsb (has_id new_id) (documents s) = false ->
        exists s',
          create_product new_id payload db = (Return (hex new_id), Some s')
          /\ documents s' = (documents s ++ [stored new_id payload])%list)
  /\ (status_code_of (fst (create_product new_id payload db)) = 200
      ∨ status_code_of (fst (create_product new_id payload db)) = 400
      ∨ (status_code_of (fst (create_product new_id payload db)) = 500 /\ db = None)).
Proof.
  assert (forall s, reachable s = false ->
            create_product new_id payload (Some s) =
              (Raise (HTTPException 400 (exn_str Collection.unreachable)),
               Some (Collection.send s))) as Hdown.
  { intros s Hr. unfold create_product, create_document, Collection.insert_one,
      mbind, M_bind, bind, try_except, db_is_none. cbn beta iota.
    by rewrite (StoreFacts.operation_unreachable _ _ Hr). }
  assert (forall s, reachable s = true ->
            existsb (has_id new_id) (documents s) = true ->
            create_product new_id payload (Some s) =
              (Raise (HTTPException 400 "DuplicateKeyError"),
               Some (Collection.send s))) as Hdup.
  { intros [ds r ops] Hr Hd. cbn [reachable documents] in Hr, Hd. subst r.
    unfold create_product, mbind, M_bind, bind, try_except, db_is_none.
    cbn beta iota. by rewrite (create_document_duplicate _ _ _ _ Hd). }
  assert (forall s, reachable s = true ->
            existsb (has_id new_id) (documents s) = false ->
            create_product new_id payload (Some s) =
              (Return (hex new_id),
               Some (Store (documents s ++ [stored new_id payload]) true
                           (S (operations s))))) as Hnew.
  { intros [ds r ops] Hr Hd. cbn [reachable documents operations] in *. subst r.
    by apply create_product_fresh. }
  split; [by intros ->|]. split; [|split; [|split]].
  - intros s -> Hr. eexists. by apply Hdown.
  - intros s -> Hr Hd. eexists. by apply Hdup.
  - intros s -> Hr Hd. eexists. split; [by apply Hnew|reflexivity].
  - destruct db as [s|]; [|by right; right].
    destruct (reachable s) eqn:Hr; [|right; left; by rewrite Hdown].
    destruct (existsb (has_id new_id) (documents s)) eqn:Hd.
    + right; left. by rewrite Hdup.
    + left. by rewrite Hnew.
Qed.

(** ** Seeding without a store, and what it counts *)

(** X8.  Without a configured store the seed utility raises the
    [HTTPException] 500; on a configured but unreachable store the
    driver's exception of the first [find_one] is not caught, so the
    client sees the status 500 as well; in both cases no record is
    written. *)
Theorem seed_without_store `{FloatText} (new_id : nat -> ObjectId) :
  seed_products new_id None =
    (Raise (HTTPException 500 "Database not available"), None)
  /\ forall s, reachable s = false ->
       seed_products new_id (Some s) =
         (Raise Collection.unreachable, Some (Collection.send s))
       /\ status_code_of (fst (seed_products new_id (Some s))) = 500
       /\ documents (Collection.send s) = documents s.
Proof.
  split; [reflexivity|]. intros s Hr.
  assert (seed_products new_id (Some s) =
            (Raise Collection.unreachable, Some (Collection.send s))) as ->; [|done].
  unfold seed_products, mbind, M_bind, bind, db_is_none. cbn beta iota.
  unfold SAMPLE_PRODUCTS. cbn [seed_loop]. unfold mbind at 1, M_bind, bind.
  unfold Collection.find_one. by rewrite (StoreFacts.operation_unreachable _ _ Hr).
Qed.

Section SeedCount.
Context `{FloatText}.

Lemma has_name_stored n o data :
  has_name n (stored o data) = bool_decide (Product.name data = n).
Proof. unfold has_name. by rewrite stored_name. Qed.

(** With samples of different names, the loop returns how many of them
    had no record of their name when it started. *)
Lemma seed_loop_value new_id ps : forall i inserted ds ops,
  NoDup (Payload.name <$> ps) ->
  (forall p, p ∈ ps -> exists data, Product.new p = Return data) ->
  (forall j, (i <= j < i + length ps)%nat -> existsb (has_id (new_id j)) ds = false) ->
  (forall j k, (i <= j < k)%nat -> (k < i + length ps)%nat -> new_id j ≠ new_id k) ->
  fst (seed_loop new_id i ps inserted (Some (Store ds true ops))) =
    Return (inserted +
            Z.of_nat (length (List.filter
                                (λ p, negb (existsb (has_name (Payload.name p)) ds)) ps))).
Proof.
  induction ps as [|p ps IH]; intros i inserted ds ops Hnd Hnew Hunused Hdiff.
  - cbn. by rewrite Z.add_0_r.
  - rewrite seed_loop_step. cbn [length] in Hunused, Hdiff.
    cbn [fmap list_fmap] in Hnd. apply NoDup_cons in Hnd as [Hp Hnd].
    cbn [List.filter].
    destruct (existsb (has_name (Payload.name p)) ds) eqn:Hstored; cbn [negb].
    + apply IH; [done| | |].
      * intros q Hq. apply Hnew. by apply list_elem_of_further.
      * intros j Hj. apply Hunused. lia.
      * intros j k Hj Hk. apply Hdiff; lia.
    + destruct (Hnew p) as [data Hdata]; [apply list_elem_of_here|].
      rewrite Hdata, create_document_fresh by (apply Hunused; lia).
      rewrite IH; [|done| | |].
      * cbn [length]. f_equal.
        rewrite (filter_ext_in
                   (λ q, negb (existsb (has_name (Payload.name q))
                                 (ds ++ [stored (new_id i) data])))
                   (λ q, negb (existsb (has_name (Payload.name q)) ds))); [lia|].
        intros q Hq. rewrite existsb_app. cbn [existsb].
        rewrite has_name_stored, (Product_new_name _ _ Hdata), orb_false_r.
        rewrite bool_decide_eq_false_2; [by rewrite orb_false_r|].
        intros Heq. apply Hp. rewrite Heq.
        apply list_elem_of_fmap. exists q. split; [done|by apply list_elem_of_In].
      * intros q Hq. apply Hnew. by apply list_elem_of_further.
      * intros j Hj. rewrite existsb_app, Hunused by lia.
        cbn [existsb orb]. rewrite has_id_stored, orb_false_r.
        apply bool_decide_eq_false. apply Hdiff; lia.
      * intros j k Hj Hk. apply Hdiff; lia.
Qed.

End SeedCount.

(** X9.  On a configured, reachable store and with fresh ids, the seed
    utility returns the number of samples whose name no stored record
    carried when it was invoked, a number from 0 to 6. *)
Theorem seed_counts_missing_names `{FloatText} (s : store) (new_id : nat -> ObjectId) :
  reachable s = true ->
  fresh_ids new_id (length SAMPLE_PRODUCTS) (documents s) = true ->
  fst (seed_products new_id (Some s)) =
    Return (Z.of_nat (length (List.filter
                                (λ p, negb (existsb (has_name (Payload.name p))
                                              (documents s)))
                                SAMPLE_PRODUCTS)))
  /\ (length (List.filter (λ p, negb (existsb (has_name (Payload.name p)) (documents s)))
                SAMPLE_PRODUCTS) <= 6)%nat.
Proof.
  intros Hr Hfresh. destruct s as [ds r ops].
  cbn [reachable documents] in Hr, Hfresh. subst r.
  apply fresh_ids_spec in Hfresh as [Hunused Hdiff]. split.
  - unfold seed_products, mbind, M_bind, bind, db_is_none. cbn beta iota.
    cbn [documents]. rewrite (seed_loop_value new_id SAMPLE_PRODUCTS 0 0 ds ops).
    + reflexivity.
    + assert (bool_decide (NoDup (Payload.name <$> SAMPLE_PRODUCTS)) = true) as Hn
        by (vm_compute; reflexivity).
      by apply bool_decide_eq_true in Hn.
    + apply samples_build.
    + intros j Hj. apply Hunused. lia.
    + intros j k Hj Hk. apply Hdiff; lia.
  - etrans; [apply filter_length_le|]. reflexivity.
Qed.

Lemma seed_counts_missing_names_witness :
  fst (seed_products (H := Demo.text) Demo.sample_id (Some (Demo.shop [Demo.vase]))) =
    Return (Z.of_nat (length (List.filter
                                (λ p, negb (existsb (has_name (Payload.name p))
                                              (documents (Demo.shop [Demo.vase]))))
                                SAMPLE_PRODUCTS)))
  /\ (length (List.filter
                (λ p, negb (existsb (has_name (Payload.name p))
                              (documents (Demo.shop [Demo.vase]))))
                SAMPLE_PRODUCTS) <= 6)%nat.
Proof.
  apply (seed_counts_missing_names (H := Demo.text) (Demo.shop [Demo.vase]) Demo.sample_id).
  - reflexivity.
  - vm_compute. reflexivity.
Defined.

(** ** Which requests reach the handler *)

Lemma SFcompare_refl (f : spec_float) : f ≠ S754_nan -> SFcompare f f = Some Eq.
Proof.
  destruct f as [s|s| |s m e]; intros Hf; try done.
  - by destruct s.
  - destruct s; cbn; rewrite Z.compare_refl; rewrite Pos.compare_cont_refl; reflexivity.
Qed.

Lemma is_nan_spec (x : float) : is_nan x = true <-> Prim2SF x = S754_nan.
Proof.
  unfold is_nan. rewrite FloatAxioms.eqb_spec. unfold SFeqb. split.
  - intros Hx. destruct (Prim2SF x) eqn:E; try reflexivity;
      rewrite SFcompare_refl in Hx by discriminate; discriminate.
  - by intros ->.
Qed.

(** A float fails [ge=0] exactly when it is negative or not a number. *)
Lemma not_ge_0 (x : float) :
  (0 <=? x)%float = false <-> (x <? 0)%float = true ∨ is_nan x = true.
Proof.
  rewrite is_nan_spec, FloatAxioms.ltb_spec, FloatAxioms.leb_spec.
  change (Prim2SF 0) with (S754_zero false).
  unfold SFltb, SFleb.
  destruct (Prim2SF x) as [[|]|[|]| |[|] m e]; cbn; split;
    try tauto; try discriminate; try (intros [?|?]; discriminate).
Qed.

Lemma leb_refl (x : float) : is_nan x = false -> (x <=? x)%float = true.
Proof.
  intros Hx. rewrite FloatAxioms.leb_spec. unfold SFleb.
  rewrite SFcompare_refl; [reflexivity|].
  intros Hn%is_nan_spec. congruence.
Qed.

(** X10.  A request is refused with the status 422, the store untouched,
    whenever a price bound that is given is negative or not a number, or
    the limit that is given lies outside 1 to 100; every other request
    reaches [list_products] with its parameters as they are and the limit
    40 when none is given. *)
Theorem request_validation `{FloatText} (r : query) (db : database) :
  ((exists x, (min_price r = Some x ∨ max_price r = Some x)
              /\ ((x <? 0)%float = true ∨ is_nan x = true))
   ∨ (exists l, limit r = Some l /\ (l < 1 ∨ 100 < l)) ->
     GET_products r db = (Raise RequestValidationError, db)
     /\ status_code_of (fst (GET_products r db)) = 422)
  /\ ((forall x, min_price r = Some x ∨ max_price r = Some x ->
         (x <? 0)%float = false /\ is_nan x = false) ->
      (forall l, limit r = Some l -> 1 <= l <= 100) ->
      GET_products r db =
        list_products (q r) (category r) (min_price r) (max_price r)
          (default 40 (limit r)) db).
Proof.
  split.
  - intros Hbad.
    assert (GET_products r db = (Raise RequestValidationError, db)) as ->; [|done].
    unfold GET_products. destruct Hbad as [(x & Hx & Hneg)|(l & Hl & Hout)].
    + apply not_ge_0 in Hneg.
      destruct Hx as [Hx|Hx]; rewrite Hx; cbn [ge_0]; rewrite Hneg;
        [reflexivity|]. by rewrite andb_false_r.
    + rewrite Hl. cbn [from_option id].
      destruct (ge_0 (min_price r) && ge_0 (max_price r)); [|reflexivity].
      cbn [andb]. destruct Hout as [Hlt|Hgt].
      * by rewrite (proj2 (Z.leb_gt 1 l) Hlt).
      * rewrite (proj2 (Z.leb_gt l 100) Hgt). by rewrite andb_false_r.
  - intros Hb Hl. unfold GET_products.
    assert (forall o, (o = min_price r ∨ o = max_price r) -> ge_0 o = true) as Hge.
    { intros [x|] Ho; [|reflexivity]. cbn [ge_0].
      destruct (0 <=? x)%float eqn:E; [reflexivity|].
      apply not_ge_0 in E. destruct (Hb x) as [Hn Hnan]; [by destruct Ho; [left|right]|].
      destruct E; congruence. }
    rewrite (Hge (min_price r)), (Hge (max_price r)) by auto. cbn [andb].
    assert (1 <= default 40 (limit r) <= 100) as [H1 H100].
    { destruct (limit r) as [l|]; [by apply Hl | cbn; lia]. }
    by rewrite (proj2 (Z.leb_le _ _) H1), (proj2 (Z.leb_le _ _) H100).
Qed.

Example request_with_nan_or_infinity :
  fst (GET_products (H := Demo.text) (Query None None (Some nan) None None)
         (Some (Demo.shop [Demo.vase]))) = Raise RequestValidationError
  /\ fst (GET_products (H := Demo.text) (Query None None (Some 0%float) (Some infinity) None)
            (Some (Demo.shop [Demo.vase]))) = Return [Demo.vase_out].
Proof. vm_compute. split; reflexivity. Qed.

(** ** The two read paths *)

(** X11.  The projection of the listing and that of the lookup give the
    same outcome on every record whose ["_id"] is truthy, whatever its
    other fields; a record without ["_id"] is listed under the empty id,
    where the projection of the lookup would say "None". *)
Theorem read_paths_agree `{FloatText} (d : document) :
  (py_bool (get d "_id") = true -> product_out_listed d = product_out d)
  /\ (d !! "_id" = None ->
      forall p, product_out_listed d = Return p -> ProductOut.id p = "")
  /\ (d !! "_id" = None ->
      forall p, product_out d = Return p -> ProductOut.id p = "None").
Proof.
  assert (forall i n ds p c l im st out,
            ProductOut.new i n ds p c l im st = Return out -> ProductOut.id out = i) as Hid.
  { intros i n ds p c l im st out. unfold ProductOut.new, ProductOut.str_field,
      ProductOut.optional_str_field, mbind, result_bind, mret, result_ret.
    destruct n, ds, c, l, im; try discriminate; by intros [= <-]. }
  split; [|split].
  - intros Ht. unfold product_out_listed, product_out. rewrite Ht.
    by case_bool_decide as E; [rewrite E|].
  - intros Hn p. unfold product_out_listed, get, get_default. rewrite Hn.
    cbn [py_bool]. destruct (py_float _); [|discriminate]. cbn. apply Hid.
  - intros Hn p. unfold product_out, get, get_default. rewrite Hn.
    cbn [py_str]. destruct (py_float _); [|discriminate]. cbn. apply Hid.
Qed.

(** ** The diagnostics endpoint *)

(** X12.  [test_database] never raises and never changes the records.
    Its [backend] entry is always "Running", and its [database_url] and
    [database_name] entries only say whether the environment variables
    are set to a non-empty text: what lines 43 and 44 store there is
    overwritten before the response is returned. *)
Theorem diagnostics_never_fail (name : string) (names : list string)
    (DATABASE_URL DATABASE_NAME : option string) (db : database) :
  exists r,
    fst (test_database name names DATABASE_URL DATABASE_NAME db) = Return r
    /\ Diagnostics.backend r = Diagnostics.backend Diagnostics.initial
    /\ Diagnostics.database_url r =
         Some (if str_bool DATABASE_URL
               then Diagnostics.set_text else Diagnostics.not_set_text)
    /\ Diagnostics.database_name r =
         Some (if str_bool DATABASE_NAME
               then Diagnostics.set_text else Diagnostics.not_set_text)
    /\ (snd (test_database name names DATABASE_URL DATABASE_NAME db) = db
        ∨ exists s, db = Some s
            /\ snd (test_database name names DATABASE_URL DATABASE_NAME db) =
                 Some (Collection.send s)).
Proof.
  destruct db as [s|].
  - destruct (reachable s) eqn:Hr.
    + eexists. unfold test_database, list_collection_names, Collection.operation,
        mbind, M_bind, bind, try_except, db_is_none, mret, M_ret, ret.
      cbn beta iota. rewrite Hr. cbn [fst snd].
      repeat split. right. exists s. split; [reflexivity|].
      unfold Collection.send. by rewrite Hr.
    + eexists. unfold test_database, list_collection_names,
        mbind, M_bind, bind, try_except, db_is_none, mret, M_ret, ret.
      cbn beta iota. rewrite (StoreFacts.operation_unreachable _ _ Hr).
      cbn [fst snd]. repeat split. right. by exists s.
  - eexists. cbn. repeat split. by left.
Qed.

(** X13.  What [test_database] reports.  Without a configured store: the
    database is "Available but not initialized", not connected, with no
    collections.  On a reachable store: "Connected & Working", connected,
    with the first ten collection names at most.  On an unreachable one:
    connected, no collections, and "Connected but Error:" followed by the
    first 50 characters of the text of the driver's exception, which is
    longer and so is cut.  The text "Not Available" of line 34 is never
    reported. *)
Theorem diagnostics_report (name : string) (names : list string)
    (DATABASE_URL DATABASE_NAME : option string) (db : database) :
  exists r,
    fst (test_database name names DATABASE_URL DATABASE_NAME db) = Return r
    /\ (db = None ->
        Diagnostics.database r = "⚠️  Available but not initialized"
        /\ Diagnostics.connection_status r = "Not Connected"
        /\ Diagnostics.collections r = [])
    /\ (forall s, db = Some s -> reachable s = true ->
          Diagnostics.database r = "✅ Connected & Working"
          /\ Diagnostics.connection_status r = "Connected"
          /\ Diagnostics.collections r = take 10 names
          /\ (length (Diagnostics.collections r) <= 10)%nat)
    /\ (forall s, db = Some s -> reachable s = false ->
          Diagnostics.database r =
            "⚠️  Connected but Error: " +:+ first_chars 50 (exn_str Collection.unreachable)
          /\ Diagnostics.database r =
               "⚠️  Connected but Error: localhost:27017: [Errno 111] Connection refused, T"
          /\ Diagnostics.database r ≠
               "⚠️  Connected but Error: " +:+ exn_str Collection.unreachable
          /\ Diagnostics.connection_status r = "Connected"
          /\ Diagnostics.collections r = [])
    /\ String.length (first_chars 50 (exn_str Collection.unreachable)) = 50%nat
    /\ (50 < String.length (exn_str Collection.unreachable))%nat
    /\ Diagnostics.database r ≠ "❌ Not Available".
Proof.
  assert (String.length (first_chars 50 (exn_str Collection.unreachable)) = 50%nat
          /\ (50 < String.length (exn_str Collection.unreachable))%nat) as Hcut.
  { split; [vm_compute; reflexivity|]. vm_compute. lia. }
  destruct db as [s|].
  - destruct (reachable s) eqn:Hr.
    + eexists. unfold test_database, list_collection_names, Collection.operation,
        mbind, M_bind, bind, try_except, db_is_none, mret, M_ret, ret.
      cbn beta iota. rewrite Hr. cbn [fst].
      split; [reflexivity|]. split; [discriminate|]. split; [|split].
      * intros ? _ _. cbn. repeat split. rewrite length_take. lia.
      * intros s' [= <-] Hr'. congruence.
      * split; [exact (proj1 Hcut)|]. split; [exact (proj2 Hcut)|]. cbn. discriminate.
    + eexists. unfold test_database, list_collection_names,
        mbind, M_bind, bind, try_except, db_is_none, mret, M_ret, ret.
      cbn beta iota. rewrite (StoreFacts.operation_unreachable _ _ Hr). cbn [fst].
      split; [reflexivity|]. split; [discriminate|]. split; [|split].
      * intros s' [= <-] Hr'. congruence.
      * intros ? _ _. cbn [Diagnostics.database Diagnostics.connection_status
          Diagnostics.collections Diagnostics.set_database Diagnostics.set_database_url
          Diagnostics.set_database_name Diagnostics.set_connection_status
          Diagnostics.set_collections Diagnostics.initial].
        split; [reflexivity|]. split; [vm_compute; reflexivity|].
        split; [vm_compute; discriminate|]. split; reflexivity.
      * split; [exact (proj1 Hcut)|]. split; [exact (proj2 Hcut)|].
        vm_compute. discriminate.
  - eexists. split; [reflexivity|]. split; [|split; [|split]];
      [intros _; cbn; repeat split | discriminate | discriminate |].
    split; [exact (proj1 Hcut)|]. split; [exact (proj2 Hcut)|]. cbn. discriminate.
Qed.

(** ** The filter that is built *)

(** X14.  The filter [list_products] builds has at most three keys, one
    for each criterion that is supplied: ["$or"] exactly when [q] is
    given and not empty, ["category"] exactly when [category] is given and
    not empty, ["price"] exactly when a bound is given, holding ["$gte"]
    and ["$lte"] exactly for the bounds that are given.  No text of a
    parameter becomes a key. *)
Theorem filter_keys (q category : option string) (min_price max_price : option float) :
  (is_Some (filter_q q category min_price max_price !! "$or") <-> str_bool q = true)
  /\ (filter_q q category min_price max_price !! "category" =
        if str_bool category
        then Some (Field (Regex ("^" +:+ default "" category +:+ "$") "i"))
        else None)
  /\ (filter_q q category min_price max_price !! "price" =
        match min_price, max_price with
        | None, None => None
        | _, _ => Some (Field (Compare (price_filter min_price max_price)))
        end)
  /\ (forall k, k ≠ "$or" -> k ≠ "category" -> k ≠ "price" ->
        filter_q q category min_price max_price !! k = None)
  /\ price_filter min_price max_price !! "$gte" = min_price
  /\ price_filter min_price max_price !! "$lte" = max_price
  /\ (forall k, k ≠ "$gte" -> k ≠ "$lte" -> price_filter min_price max_price !! k = None).
Proof.
  unfold filter_q.
  change (match max_price with
          | Some m => <["$lte":=m]> match min_price with
                                    | Some m0 => <["$gte":=m0]> ∅
                                    | None => ∅
                                    end
          | None => match min_price with
                    | Some m => <["$gte":=m]> ∅
                    | None => ∅
                    end
          end) with (price_filter min_price max_price).
  rewrite dict_bool_price_filter.
  split; [|split; [|split; [|split; [|split; [|split]]]]].
  - destruct (str_bool q), (str_bool category), min_price, max_price;
      split; try done; try (intros _; by eexists); by intros [? ?].
  - by destruct (str_bool q), (str_bool category), min_price, max_price.
  - by destruct (str_bool q), (str_bool category), min_price, max_price.
  - intros k H1 H2 H3.
    destruct (str_bool q), (str_bool category), min_price, max_price;
      rewrite ?lookup_insert_ne by done; apply lookup_empty.
  - apply price_filter_gte.
  - apply price_filter_lte.
  - intros k H1 H2. unfold price_filter.
    destruct min_price, max_price; rewrite ?lookup_insert_ne by done; apply lookup_empty.
Qed.

(** ** Terms that are not plain *)

Section Patterns.
Context `{FloatText}.
Import StoreFacts.

Lemma compile_leading_quantifier (c : ascii) (rest : string) :
  c = "*"%char ∨ c = "+"%char ∨ c = "?"%char ->
  Regex.compile (String c rest) = Regex.Invalid.
Proof. by intros [-> | [-> | ->]]. Qed.

End Patterns.

(** X15.  The search term reaches the store as a pattern, not as a text:
    on a configured, reachable store, a term that starts with [*], [+] or
    [?] is refused by the store as an invalid regular expression, and
    since [list_products] catches nothing the client sees the status 500;
    the records are not changed. *)
Theorem term_starting_with_a_quantifier `{FloatText} (s : store) (c : ascii)
    (rest : string) (min_price max_price : option float) (limit : Z) :
  reachable s = true ->
  c = "*"%char ∨ c = "+"%char ∨ c = "?"%char ->
  list_products (Some (String c rest)) None min_price max_price limit (Some s) =
    (Raise (PyMongoError "Regular expression is invalid"), Some (Collection.send s))
  /\ status_code_of
       (fst (list_products (Some (String c rest)) None min_price max_price limit
               (Some s))) = 500.
Proof.
  intros Hr Hc.
  assert (list_products (Some (String c rest)) None min_price max_price limit (Some s) =
          (Raise (PyMongoError "Regular expression is invalid"),
           Some (Collection.send s))) as ->; [|done].
  rewrite (list_products_reachable _ _ _ _ _ _ Hr).
  pose proof (compile_leading_quantifier c rest Hc) as Hinv.
  assert (forall p, Mongo.filter_all p
                      (filter_q (Some (String c rest)) None min_price max_price) =
                    (if dict_bool (price_filter min_price max_price)
                     then p (Compare (price_filter min_price max_price)) else true)
                    && p (Regex (String c rest) "i")) as Hall.
  { intros p. unfold filter_q.
    change (str_bool (Some (String c rest))) with true.
    change (str_bool None) with false. cbn iota.
    rewrite (filter_all_add p _ "price" _ _) by done.
    rewrite StoreFacts.filter_all_insert by apply lookup_empty.
    rewrite StoreFacts.filter_all_empty, andb_true_r.
    cbn [Mongo.clause_all forallb from_option id].
    rewrite !StoreFacts.alt_all_singleton.
    f_equal. by destruct (p (Regex (String c rest) "i")). }
  unfold Collection.check_filter. rewrite !Hall.
  cbn [Mongo.interpreted Mongo.well_formed]. rewrite Hinv.
  by destruct (dict_bool _).
Qed.

Lemma term_starting_with_a_quantifier_witness :
  list_products (H := Demo.text) (Some "*") None None None 40
      (Some (Demo.shop [Demo.vase])) =
    (Raise (PyMongoError "Regular expression is invalid"),
     Some (Collection.send (Demo.shop [Demo.vase])))
  /\ status_code_of
       (fst (list_products (H := Demo.text) (Some "*") None None None 40
               (Some (Demo.shop [Demo.vase])))) = 500.
Proof.
  apply (term_starting_with_a_quantifier (H := Demo.text)
           (Demo.shop [Demo.vase]) "*"%char "" None None 40).
  - reflexivity.
  - by left.
Defined.

(** ** Letter case of the parameters *)

Module CaseFacts.
Import Text.

Lemma same_char_left a b x :
  same_char true a b = true -> same_char true a x = same_char true b x.
Proof. unfold same_char. intros Hab%bool_decide_eq_true. by rewrite Hab. Qed.

Lemma prefix_ci_equal (q q' : string) :
  equal_ci q q' = true -> forall text, prefix_ci q text = prefix_ci q' text.
Proof.
  revert q'. induction q as [|a q IH]; intros [|b q'] Heq text; try done.
  cbn [equal_ci] in Heq. apply andb_prop in Heq as [Hab Heq].
  destruct text as [|x text]; [reflexivity|]. cbn [prefix_ci].
  by rewrite (same_char_left a b x Hab), (IH q' Heq).
Qed.

Lemma substring_ci_equal (q q' : string) :
  equal_ci q q' = true -> forall text, substring_ci q text = substring_ci q' text.
Proof.
  intros Heq text. induction text as [|x text IH]; cbn [substring_ci];
    rewrite (prefix_ci_equal q q' Heq); [reflexivity|]. by rewrite IH.
Qed.

Lemma equal_ci_left (c c' : string) :
  equal_ci c c' = true -> forall text, equal_ci c text = equal_ci c' text.
Proof.
  revert c'. induction c as [|a c IH]; intros [|b c'] Heq text; try done.
  cbn [equal_ci] in Heq. apply andb_prop in Heq as [Hab Heq].
  destruct text as [|x text]; [reflexivity|]. cbn [equal_ci].
  by rewrite (same_char_left a b x Hab), (IH c' Heq).
Qed.

Lemma equal_ci_refl (s : string) : equal_ci s s = true.
Proof.
  induction s as [|a s IH]; [reflexivity|]. cbn [equal_ci]. rewrite IH, andb_true_r.
  unfold same_char. by apply bool_decide_eq_true.
Qed.

Lemma equal_ci_append (c c' s : string) :
  equal_ci c c' = true -> equal_ci (c +:+ s) (c' +:+ s) = true.
Proof.
  revert c'. induction c as [|a c IH]; intros [|b c'] Heq; try done.
  - apply equal_ci_refl.
  - cbn [equal_ci] in Heq. apply andb_prop in Heq as [Hab Heq].
    rewrite !RegexFacts.append_cons. cbn [equal_ci]. by rewrite Hab, (IH c' Heq).
Qed.

Lemma equal_ci_empty (c c' : string) :
  equal_ci c c' = true -> bool_decide (c = "") = bool_decide (c' = "").
Proof. by destruct c, c'. Qed.

End CaseFacts.

(** X16.  Letter case in the parameters does not matter either: on a
    configured, reachable store, two requests whose plain terms differ
    only in letter case, and whose plain categories differ only in letter
    case, get the same answer. *)
Theorem case_of_parameters `{FloatText} (s : store) (q q' category category' : string)
    (min_price max_price : option float) (limit : Z) :
  reachable s = true ->
  1 <= limit <= 100 ->
  Regex.plain q = true -> Regex.plain q' = true ->
  Regex.plain category = true -> Regex.plain category' = true ->
  Text.equal_ci q q' = true ->
  Text.equal_ci category category' = true ->
  list_products (Some q) (Some category) min_price max_price limit (Some s) =
    list_products (Some q') (Some category') min_price max_price limit (Some s).
Proof.
  intros Hr Hl Hq Hq' Hc Hc' Heq Hec.
  rewrite (list_products_selected s (Some q) (Some category) _ _ limit Hr Hq Hc).
  rewrite (list_products_selected s (Some q') (Some category') _ _ limit Hr Hq' Hc').
  assert (forall d, Criteria.term_occurs q d = Criteria.term_occurs q' d) as Hterm.
  { intros d. unfold Criteria.term_occurs, Criteria.searched_fields. cbn [existsb].
    assert (forall k, match d !! k with
                      | Some (BStr text) => Text.substring_ci q text
                      | _ => false
                      end =
                      match d !! k with
                      | Some (BStr text) => Text.substring_ci q' text
                      | _ => false
                      end) as Hk.
    { intros k. destruct (d !! k) as [[]|]; try reflexivity.
      apply (CaseFacts.substring_ci_equal _ _ Heq). }
    by rewrite !Hk. }
  assert (forall d, Criteria.category_is category d = Criteria.category_is category' d)
    as Hcat.
  { intros d. unfold Criteria.category_is.
    destruct (d !! "category") as [[]|]; try reflexivity.
    rewrite (CaseFacts.equal_ci_left _ _ Hec).
    by rewrite (CaseFacts.equal_ci_left _ _
                  (CaseFacts.equal_ci_append _ _ (String Text.LF "") Hec)). }
  do 3 f_equal. apply filter_ext. intros d. unfold selected_by, str_bool.
  rewrite (CaseFacts.equal_ci_empty _ _ Heq), (CaseFacts.equal_ci_empty _ _ Hec).
  cbn [from_option id]. by rewrite Hterm, Hcat.
Qed.

Lemma case_of_parameters_witness :
  list_products (H := Demo.text) (Some "VASE") (Some "ceramics") None None 40
      (Some (Demo.shop [Demo.vase; Demo.basket])) =
    list_products (H := Demo.text) (Some "vase") (Some "CERAMICS") None None 40
      (Some (Demo.shop [Demo.vase; Demo.basket])).
Proof.
  apply (case_of_parameters (H := Demo.text) (Demo.shop [Demo.vase; Demo.basket])
           "VASE" "vase" "ceramics" "CERAMICS" None None 40).
  - reflexivity.
  - lia.
  - vm_compute. reflexivity.
  - vm_compute. reflexivity.
  - vm_compute. reflexivity.
  - vm_compute. reflexivity.
  - vm_compute. reflexivity.
  - vm_compute. reflexivity.
Defined.

(** ** Bounds are inclusive *)

(** X17.  The price bounds are inclusive: the filter built for
    [min_price] equal to [p], for [max_price] equal to [p], or for both,
    selects every record whose stored price is the double [p]. *)
Theorem price_bounds_are_inclusive `{FloatText} (p : float) (d : document) :
  is_nan p = false ->
  d !! "price" = Some (BDouble p) ->
  Mongo.matches (filter_q None None (Some p) (Some p)) d = true
  /\ Mongo.matches (filter_q None None (Some p) None) d = true
  /\ Mongo.matches (filter_q None None None (Some p)) d = true.
Proof.
  intros Hn Hp.
  rewrite !matches_price by ((left; by eexists) || (right; by eexists)).
  unfold Criteria.price_within, Mongo.number_ge, Mongo.number_le.
  rewrite Hp, (leb_refl p Hn). by repeat split.
Qed.

Lemma price_bounds_are_inclusive_witness :
  Mongo.matches (filter_q None None (Some 1299%float) (Some 1299%float)) Demo.vase = true
  /\ Mongo.matches (filter_q None None (Some 1299%float) None) Demo.vase = true
  /\ Mongo.matches (filter_q None None None (Some 1299%float)) Demo.vase = true.
Proof.
  apply (price_bounds_are_inclusive (H := Demo.text) 1299%float Demo.vase).
  - reflexivity.
  - reflexivity.
Defined.
